(** * Block manipulation demo: the stage controller

    A shallow embedding of [clam_msgs::BlockManipulationAction]
    (clam_block_manipulation/src/demo/block_manipulation_action_demo.cpp).

    The class owns three actionlib clients and one service client.  Its
    constructor loads seven parameters, builds the three goals and the
    service request once, waits for the four endpoints and calls
    [resetArm]; every later step of the program is one completion callback
    ([addBlocks], [pickAndPlace], [finish]) delivered by the middleware.

    The member functions are state-monad actions over a [Node]: the object
    [this] together with what the ROS side can observe of it, namely the
    sequence of middleware calls it made, whether [ros::shutdown] was
    requested and how many times the service was called. *)

From Stdlib Require Import String List Bool Arith Lia PrimFloat.
From ExtLib Require Import Structures.Monad Structures.MonadState.
From ExtLib Require Import Data.Monads.StateMonad.
Import ListNotations.
Import MonadNotation.
Local Open Scope monad_scope.
Local Open Scope string_scope.
Local Open Scope list_scope.

(* Decimal literals denote the nearest binary64 value, as in the C++ source. *)
#[local] Set Warnings "-inexact-float".

(** ** Middleware types *)

(** [actionlib::SimpleClientGoalState::StateEnum]. *)
Inductive SimpleClientGoalState :=
| PENDING | ACTIVE | RECALLED | REJECTED | PREEMPTED | ABORTED | SUCCEEDED | LOST.

(** [state == actionlib::SimpleClientGoalState::SUCCEEDED] *)
Definition is_SUCCEEDED (state : SimpleClientGoalState) : bool :=
  match state with SUCCEEDED => true | _ => false end.

(** [SimpleClientGoalState::toString] *)
Definition toString (state : SimpleClientGoalState) : string :=
  match state with
  | PENDING => "PENDING" | ACTIVE => "ACTIVE" | RECALLED => "RECALLED"
  | REJECTED => "REJECTED" | PREEMPTED => "PREEMPTED" | ABORTED => "ABORTED"
  | SUCCEEDED => "SUCCEEDED" | LOST => "LOST"
  end.

(** The four remote endpoints, named as the constructor names them. *)
Inductive Endpoint :=
| send_home | block_detection | interactive_manipulation | pick_place.

Definition Endpoint_eqb (a b : Endpoint) : bool :=
  match a, b with
  | send_home, send_home | block_detection, block_detection
  | interactive_manipulation, interactive_manipulation
  | pick_place, pick_place => true
  | _, _ => false
  end.

Definition endpoint_name (e : Endpoint) : string :=
  match e with
  | send_home => "/send_home"
  | block_detection => "block_detection"
  | interactive_manipulation => "interactive_manipulation"
  | pick_place => "pick_place"
  end.

(** ** clam_msgs messages

    The message declarations of [clam_msgs] are generated from files that
    are not part of the demo; each record below has the fields the demo
    assigns, under the names it uses. *)

(** Modelled from the spec: the goal of the detection endpoint, declared in
    clam_msgs/BlockDetectionAction.h, is
    {frame, surfaceHeight, objectSize}. *)
Module BlockDetectionGoal.
Record t := mk { frame : string; table_height : float; block_size : float }.
End BlockDetectionGoal.

(** Modelled from the spec: the goal of the selection endpoint, declared in
    clam_msgs/InteractiveBlockManipulationAction.h, is {objectSize, frame}. *)
Module InteractiveBlockManipulationGoal.
Record t := mk { block_size : float; frame : string }.
End InteractiveBlockManipulationGoal.

(** Modelled from the spec: the goal of the pick-and-place endpoint, declared
    in clam_msgs/PickPlaceAction.h, is {frame, liftHeight, gripperOpenWidth,
    gripperClosedWidth, resultChannelId}. *)
Module PickPlaceGoal.
Record t := mk {
  frame : string;
  z_up : float;
  gripper_open : float;
  gripper_closed : float;
  topic : string
}.
End PickPlaceGoal.

(** Modelled from the spec: the service declared in
    clam_msgs/SendHomeService.h takes {requestHome} and answers with a
    boolean acknowledgement. *)
Module SendHomeService.
Record Request := mkRequest { sendHome : bool }.
Record Response := mkResponse { acknowledged : bool }.
Record t := mk { request : Request; response : Response }.
End SendHomeService.

(** A goal handed to [sendGoal]; the client's type fixes the constructor. *)
Inductive Goal :=
| DetectGoal (g : BlockDetectionGoal.t)
| SelectGoal (g : InteractiveBlockManipulationGoal.t)
| PickPlaceGoal_ (g : PickPlaceGoal.t).

Definition goal_endpoint (g : Goal) : Endpoint :=
  match g with
  | DetectGoal _ => block_detection
  | SelectGoal _ => interactive_manipulation
  | PickPlaceGoal_ _ => pick_place
  end.

(** ** What the middleware sees *)

Inductive Severity := INFO | ERROR.

Inductive LogArg :=
| ArgDouble (d : float)
| ArgString (s : string)
| ArgResponse (r : SendHomeService.Response).

Inductive Event :=
| Log (lvl : Severity) (fmt : string) (args : list LogArg)
| WaitForServer (e : Endpoint)
| ServiceCall (req : SendHomeService.Request)
| ServiceReturn (ok : bool)
| SendGoal (g : Goal)
| DoneCallback (e : Endpoint) (state : SimpleClientGoalState)
| Shutdown.

(** [actionlib::SimpleActionClient]: the server it talks to, whether it
    spins its own thread, and whether the goal it tracks is unanswered. *)
Record SimpleActionClient := mkClient {
  server : Endpoint;
  spin_thread : bool;
  outstanding : bool
}.

(** ** The class *)

Record BlockManipulationAction := mkThis {
  (* Actions *)
  block_detection_action_ : SimpleActionClient;
  interactive_manipulation_action_ : SimpleActionClient;
  pick_place_action_ : SimpleActionClient;
  (* Action Goals *)
  block_detection_goal_ : BlockDetectionGoal.t;
  interactive_manipulation_goal_ : InteractiveBlockManipulationGoal.t;
  pick_place_goal_ : PickPlaceGoal.t;
  (* Services *)
  home_srv_ : SendHomeService.t;
  (* Parameters *)
  arm_link : string;
  gripper_open : float;
  gripper_closed : float;
  z_up : float;
  z_down : float;
  block_size : float;
  once : bool
}.

Record Node := mkNode {
  this : BlockManipulationAction;
  trace : list Event;            (* oldest first *)
  shutdown_requested : bool;
  home_calls : nat
}.

(** [const std::string pick_place_topic = "/pick_place";] *)
Definition pick_place_topic : string := "/pick_place".

(** The parameter server, seen through the three typed lookups the
    constructor uses: [None] when [nh_.param] falls back to its default. *)
Record ParamServer := mkParams {
  get_string : string -> option string;
  get_double : string -> option float;
  get_bool : string -> option bool
}.

(** [nh_.param<T>(name, var, default)] *)
Definition param {T} (lookup : string -> option T) (name : string) (default : T) : T :=
  match lookup name with Some v => v | None => default end.

(** ** Field updates *)

Definition track (on : bool) (c : SimpleActionClient) : SimpleActionClient :=
  mkClient (server c) (spin_thread c) on.

Definition with_block_detection_action_ (f : SimpleActionClient -> SimpleActionClient)
    (o : BlockManipulationAction) : BlockManipulationAction :=
  mkThis (f (block_detection_action_ o)) (interactive_manipulation_action_ o)
    (pick_place_action_ o) (block_detection_goal_ o)
    (interactive_manipulation_goal_ o) (pick_place_goal_ o) (home_srv_ o)
    (arm_link o) (gripper_open o) (gripper_closed o) (z_up o) (z_down o)
    (block_size o) (once o).

Definition with_interactive_manipulation_action_
    (f : SimpleActionClient -> SimpleActionClient)
    (o : BlockManipulationAction) : BlockManipulationAction :=
  mkThis (block_detection_action_ o) (f (interactive_manipulation_action_ o))
    (pick_place_action_ o) (block_detection_goal_ o)
    (interactive_manipulation_goal_ o) (pick_place_goal_ o) (home_srv_ o)
    (arm_link o) (gripper_open o) (gripper_closed o) (z_up o) (z_down o)
    (block_size o) (once o).

Definition with_pick_place_action_ (f : SimpleActionClient -> SimpleActionClient)
    (o : BlockManipulationAction) : BlockManipulationAction :=
  mkThis (block_detection_action_ o) (interactive_manipulation_action_ o)
    (f (pick_place_action_ o)) (block_detection_goal_ o)
    (interactive_manipulation_goal_ o) (pick_place_goal_ o) (home_srv_ o)
    (arm_link o) (gripper_open o) (gripper_closed o) (z_up o) (z_down o)
    (block_size o) (once o).

Definition with_home_srv_ (f : SendHomeService.t -> SendHomeService.t)
    (o : BlockManipulationAction) : BlockManipulationAction :=
  mkThis (block_detection_action_ o) (interactive_manipulation_action_ o)
    (pick_place_action_ o) (block_detection_goal_ o)
    (interactive_manipulation_goal_ o) (pick_place_goal_ o) (f (home_srv_ o))
    (arm_link o) (gripper_open o) (gripper_closed o) (z_up o) (z_down o)
    (block_size o) (once o).

(** The action client a goal is sent through. *)
Definition with_client (e : Endpoint) (f : SimpleActionClient -> SimpleActionClient)
    (o : BlockManipulationAction) : BlockManipulationAction :=
  match e with
  | send_home => o
  | block_detection => with_block_detection_action_ f o
  | interactive_manipulation => with_interactive_manipulation_action_ f o
  | pick_place => with_pick_place_action_ f o
  end.

(** ** The ROS primitives the class calls *)

Definition M := state Node.

Definition emit (e : Event) : M unit :=
  mkState (fun n =>
    (tt, mkNode (this n) (trace n ++ [e]) (shutdown_requested n) (home_calls n))).

Definition update_this (f : BlockManipulationAction -> BlockManipulationAction) : M unit :=
  mkState (fun n =>
    (tt, mkNode (f (this n)) (trace n) (shutdown_requested n) (home_calls n))).

Definition self : M BlockManipulationAction :=
  mkState (fun n => (this n, n)).

Definition ROS_INFO (fmt : string) (args : list LogArg) : M unit :=
  emit (Log INFO fmt args).

Definition ROS_ERROR (fmt : string) (args : list LogArg) : M unit :=
  emit (Log ERROR fmt args).

(** [ros::shutdown()] *)
Definition ros_shutdown : M unit :=
  mkState (fun n =>
    (tt, mkNode (this n) (trace n ++ [Shutdown]) true (home_calls n))).

(** [client.sendGoal(goal, boost::bind(callback, this, _1, _2))]: the goal
    goes out and the client tracks it until its done-callback runs.  Every
    call site binds the same callback to a given client ([addBlocks] to
    block detection, [pickAndPlace] to interactive manipulation, [finish]
    to pick and place), so the client alone selects the callback. *)
Definition sendGoal (g : Goal) : M unit :=
  emit (SendGoal g) ;;
  update_this (with_client (goal_endpoint g) (track true)).

Section Environment.

(** The remote side of /send_home: the answer to the k-th call made by the
    node, [None] when [ServiceClient::call] returns false. *)
Variable home_service : nat -> option SendHomeService.Response.

(** The result messages of the three actions; the callbacks receive them. *)
Variables BlockDetectionResult InteractiveBlockManipulationResult PickPlaceResult : Type.

(** [home_service_.call(home_srv_)]: blocks until the answer is in; on
    success the response is stored in [home_srv_]. *)
Definition home_service_call : M bool :=
  o <- self ;;
  emit (ServiceCall (SendHomeService.request (home_srv_ o))) ;;
  mkState (fun n =>
    match home_service (home_calls n) with
    | Some r =>
        (true,
         mkNode (with_home_srv_
                   (fun s => SendHomeService.mk (SendHomeService.request s) r)
                   (this n))
                (trace n ++ [ServiceReturn true]) (shutdown_requested n)
                (S (home_calls n)))
    | None =>
        (false,
         mkNode (this n) (trace n ++ [ServiceReturn false])
                (shutdown_requested n) (S (home_calls n)))
    end).

(** ** Member functions *)

Definition detectBlocks : M unit :=
  ROS_INFO "2. Detecting blocks using PCL" [] ;;
  o <- self ;;
  sendGoal (DetectGoal (block_detection_goal_ o)).

Definition resetArm : M unit :=
  ROS_INFO "1. Resetting arm to home position" [] ;;
  ok <- home_service_call ;;
  if ok : bool then
    detectBlocks
  else
    o <- self ;;
    ROS_ERROR ("Failed to call service /send_home " ++ String (Ascii.ascii_of_nat 10) "")%string
      [ArgResponse (SendHomeService.response (home_srv_ o))] ;;
    ret tt.

Definition skipPerception : M unit :=
  ROS_INFO "1.1 Skipping perception, sending goal" [] ;;
  o <- self ;;
  sendGoal (PickPlaceGoal_ (pick_place_goal_ o)).

Definition addBlocks (state : SimpleClientGoalState)
    (result : BlockDetectionResult) : M unit :=
  (if is_SUCCEEDED state then
     ROS_INFO "3. Detected blocks, adding to Rviz. Waiting for user input." []
   else
     ROS_ERROR "3. Failed to detect blocks: %s" [ArgString (toString state)] ;;
     ros_shutdown) ;;
  o <- self ;;
  sendGoal (SelectGoal (interactive_manipulation_goal_ o)).

Definition pickAndPlace (state : SimpleClientGoalState)
    (result : InteractiveBlockManipulationResult) : M unit :=
  (if is_SUCCEEDED state then
     ROS_INFO "4. Rviz interactive marker recieved, moving arm" []
   else
     ROS_ERROR "4. Rviz interactive marker input did not succeed: %s"
       [ArgString (toString state)] ;;
     ros_shutdown) ;;
  o <- self ;;
  sendGoal (PickPlaceGoal_ (pick_place_goal_ o)).

Definition finish (state : SimpleClientGoalState) (result : PickPlaceResult) : M unit :=
  (if is_SUCCEEDED state then
     ROS_INFO "5. Pick and place commands successfull" []
   else
     ROS_ERROR "6. Pick and place did not succeed: %s" [ArgString (toString state)]) ;;
  o <- self ;;
  if once o then
    ROS_INFO "Shutting down" [] ;;
    ros_shutdown
  else
    ROS_INFO " " [] ;;
    ROS_INFO "Restarting Demo --------------------------------------------- " [] ;;
    resetArm.

(** ** Construction *)

(** The member initialisers and the two first blocks of the constructor:
    parameters are loaded, then the goals and the request are filled in. *)
Definition initialize (ps : ParamServer) : BlockManipulationAction :=
  let arm_link := param (get_string ps) "/block_manipulation_action_demo/arm_link" "/base_link" in
  let gripper_open := param (get_double ps) "/block_manipulation_action_demo/gripper_open" 0.042%float in
  let gripper_closed := param (get_double ps) "/block_manipulation_action_demo/gripper_closed" 0.024%float in
  let z_up := param (get_double ps) "/block_manipulation_action_demo/z_up" 0.12%float in
  let z_down := param (get_double ps) "/block_manipulation_action_demo/table_height" 0.01%float in
  let block_size := param (get_double ps) "/block_manipulation_action_demo/block_size" 0.03%float in
  let once := param (get_bool ps) "once" false in
  mkThis
    (mkClient block_detection true false)
    (mkClient interactive_manipulation true false)
    (mkClient pick_place true false)
    (BlockDetectionGoal.mk arm_link z_down block_size)
    (InteractiveBlockManipulationGoal.mk block_size arm_link)
    (PickPlaceGoal.mk arm_link z_up gripper_open gripper_closed pick_place_topic)
    (SendHomeService.mk (SendHomeService.mkRequest true)
                        (SendHomeService.mkResponse false))
    arm_link gripper_open gripper_closed z_up z_down block_size once.

(** The rest of the constructor: it reports two parameters, waits for the
    four endpoints and starts the first cycle. *)
Definition construct : M unit :=
  o <- self ;;
  ROS_INFO "Block size %f" [ArgDouble (block_size o)] ;;
  ROS_INFO "Table height %f" [ArgDouble (z_down o)] ;;
  ROS_INFO "Finished initializing, waiting for servers:" [] ;;
  ROS_INFO "- Waiting for block detection server." [] ;;
  emit (WaitForServer block_detection) ;;
  ROS_INFO "- Waiting for interactive manipulation." [] ;;
  emit (WaitForServer interactive_manipulation) ;;
  ROS_INFO "- Waiting for pick and place server." [] ;;
  emit (WaitForServer pick_place) ;;
  ROS_INFO "- Waiting for send home service." [] ;;
  emit (WaitForServer send_home) ;;
  ROS_INFO " " [] ;;
  resetArm.

(** [clam_msgs::BlockManipulationAction demo;] in [main]. *)
Definition boot (ps : ParamServer) : Node :=
  execState construct (mkNode (initialize ps) [] false 0).

(** ** Callback delivery ([ros::spin] and the clients' spin threads) *)

Inductive Completion :=
| BlockDetectionDone (state : SimpleClientGoalState) (result : BlockDetectionResult)
| InteractiveBlockManipulationDone (state : SimpleClientGoalState)
    (result : InteractiveBlockManipulationResult)
| PickPlaceDone (state : SimpleClientGoalState) (result : PickPlaceResult).

Definition completion_endpoint (c : Completion) : Endpoint :=
  match c with
  | BlockDetectionDone _ _ => block_detection
  | InteractiveBlockManipulationDone _ _ => interactive_manipulation
  | PickPlaceDone _ _ => pick_place
  end.

Definition completion_state (c : Completion) : SimpleClientGoalState :=
  match c with
  | BlockDetectionDone s _ | InteractiveBlockManipulationDone s _
  | PickPlaceDone s _ => s
  end.

Definition client_of (e : Endpoint) (o : BlockManipulationAction) : option SimpleActionClient :=
  match e with
  | send_home => None
  | block_detection => Some (block_detection_action_ o)
  | interactive_manipulation => Some (interactive_manipulation_action_ o)
  | pick_place => Some (pick_place_action_ o)
  end.

Definition awaiting (e : Endpoint) (n : Node) : bool :=
  match client_of e (this n) with
  | Some c => outstanding c
  | None => false
  end.

(** The callback bound to the client that completed. *)
Definition callback (c : Completion) : M unit :=
  match c with
  | BlockDetectionDone s r => addBlocks s r
  | InteractiveBlockManipulationDone s r => pickAndPlace s r
  | PickPlaceDone s r => finish s r
  end.

(** A goal's terminal state arrives: the client stops tracking the goal and
    runs the done-callback.  A completion for a client that tracks nothing
    is not delivered.  Delivery is not stopped by an earlier
    [ros::shutdown]: what the middleware still delivers then is not decided
    by the demo, and every property below holds either way. *)
Definition deliver (c : Completion) (n : Node) : option Node :=
  if awaiting (completion_endpoint c) n then
    Some (execState
            (update_this (with_client (completion_endpoint c) (track false)) ;;
             emit (DoneCallback (completion_endpoint c) (completion_state c)) ;;
             callback c) n)
  else None.

(** A run: the completions the middleware delivers, in order.  [None] when
    the script answers a client that has nothing outstanding. *)
Fixpoint run (cs : list Completion) (n : Node) : option Node :=
  match cs with
  | [] => Some n
  | c :: cs' =>
      match deliver c n with
      | Some n' => run cs' n'
      | None => None
      end
  end.

(** ** Observations used in the statements *)

(** The seven parameters of the class: the Configuration. *)
Definition configuration (o : BlockManipulationAction) :=
  (arm_link o, gripper_open o, gripper_closed o, z_up o, z_down o,
   block_size o, once o).

(** The three stored goals and the stored service request. *)
Definition payloads (o : BlockManipulationAction) :=
  (block_detection_goal_ o, interactive_manipulation_goal_ o,
   pick_place_goal_ o, SendHomeService.request (home_srv_ o)).

(** Which action clients track an unanswered goal. *)
Definition flags (n : Node) : bool * bool * bool :=
  (outstanding (block_detection_action_ (this n)),
   outstanding (interactive_manipulation_action_ (this n)),
   outstanding (pick_place_action_ (this n))).

(** A request leaves the node: the service call or a goal. *)
Definition request_to (e : Event) : option Endpoint :=
  match e with
  | ServiceCall _ => Some send_home
  | SendGoal g => Some (goal_endpoint g)
  | _ => None
  end.

(** An answer reaches the node: the service returns or a done-callback runs. *)
Definition answer_from (e : Event) : option Endpoint :=
  match e with
  | ServiceReturn _ => Some send_home
  | DoneCallback ep _ => Some ep
  | _ => None
  end.

Definition is_request (e : Event) : bool :=
  match request_to e with Some _ => true | None => false end.

Definition is_action (e : Event) : bool :=
  match e with
  | ServiceCall _ | SendGoal _ | Shutdown => true
  | _ => false
  end.

(** The requests of a trace, in the order they were issued. *)
Definition requests (t : list Event) : list Event := filter is_request t.

(** The requests and shutdown requests of a trace. *)
Definition actions (t : list Event) : list Event := filter is_action t.

Fixpoint remove_first (ep : Endpoint) (l : list Endpoint) : list Endpoint :=
  match l with
  | [] => []
  | x :: l' => if Endpoint_eqb ep x then l' else x :: remove_first ep l'
  end.

Definition settle (open : list Endpoint) (e : Event) : list Endpoint :=
  match request_to e, answer_from e with
  | Some ep, _ => open ++ [ep]
  | None, Some ep => remove_first ep open
  | None, None => open
  end.

(** The endpoints with a request issued in [t] and not answered in [t]. *)
Definition unanswered (t : list Event) : list Endpoint := fold_left settle t [].

(** A single-slot monitor: a request may only fill the empty slot, an answer
    may only empty the slot its own request filled. *)
Definition slot_step (slot : option Endpoint) (e : Event) : option (option Endpoint) :=
  match request_to e, answer_from e with
  | Some ep, _ => match slot with None => Some (Some ep) | Some _ => None end
  | None, Some ep =>
      match slot with
      | Some ep' => if Endpoint_eqb ep ep' then Some None else None
      | None => None
      end
  | None, None => Some slot
  end.

Fixpoint monitor (slot : option Endpoint) (t : list Event) : option (option Endpoint) :=
  match t with
  | [] => Some slot
  | e :: t' =>
      match slot_step slot e with
      | Some slot' => monitor slot' t'
      | None => None
      end
  end.

Definition slot_flags (slot : option Endpoint) : bool * bool * bool :=
  match slot with
  | Some block_detection => (true, false, false)
  | Some interactive_manipulation => (false, true, false)
  | Some pick_place => (false, false, true)
  | Some send_home | None => (false, false, false)
  end.

Definition slot_list (slot : option Endpoint) : list Endpoint :=
  match slot with Some ep => [ep] | None => [] end.

Definition sends_to (ep : Endpoint) (e : Event) : bool :=
  match e with
  | SendGoal g => Endpoint_eqb ep (goal_endpoint g)
  | _ => false
  end.

(** How many goals a trace sent to [ep]. *)
Definition goals_sent (ep : Endpoint) (t : list Event) : nat :=
  length (filter (sends_to ep) t).

Definition is_call (e : Event) : bool :=
  match e with ServiceCall _ => true | _ => false end.

(** How many times a trace called the /send_home service. *)
Definition calls_made (t : list Event) : nat := length (filter is_call t).

(** The requests of one full cycle, with the payloads stored in [o]. *)
Definition cycle (o : BlockManipulationAction) : list Event :=
  [ServiceCall (SendHomeService.request (home_srv_ o));
   SendGoal (DetectGoal (block_detection_goal_ o));
   SendGoal (SelectGoal (interactive_manipulation_goal_ o));
   SendGoal (PickPlaceGoal_ (pick_place_goal_ o))].

(** A script of [N] cycles in which every stage reports SUCCEEDED. *)
Inductive successful_cycles : nat -> list Completion -> Prop :=
| cycles_none : successful_cycles 0 []
| cycles_more N cs r1 r2 r3 :
    successful_cycles N cs ->
    successful_cycles (S N)
      (cs ++ [BlockDetectionDone SUCCEEDED r1;
              InteractiveBlockManipulationDone SUCCEEDED r2;
              PickPlaceDone SUCCEEDED r3]).

(** Each request of a trace carries the payload stored for its endpoint. *)
Definition carries (p : BlockDetectionGoal.t * InteractiveBlockManipulationGoal.t
                        * PickPlaceGoal.t * SendHomeService.Request)
    (e : Event) : Prop :=
  match e with
  | SendGoal (DetectGoal g) => g = fst (fst (fst p))
  | SendGoal (SelectGoal g) => g = snd (fst (fst p))
  | SendGoal (PickPlaceGoal_ g) => g = snd (fst p)
  | ServiceCall r => r = snd p
  | _ => True
  end.

(** The progress report each callback writes before it acts. *)
Definition addBlocks_report (state : SimpleClientGoalState) : list Event :=
  if is_SUCCEEDED state
  then [Log INFO "3. Detected blocks, adding to Rviz. Waiting for user input." []]
  else [Log ERROR "3. Failed to detect blocks: %s" [ArgString (toString state)];
        Shutdown].

Definition pickAndPlace_report (state : SimpleClientGoalState) : list Event :=
  if is_SUCCEEDED state
  then [Log INFO "4. Rviz interactive marker recieved, moving arm" []]
  else [Log ERROR "4. Rviz interactive marker input did not succeed: %s"
          [ArgString (toString state)];
        Shutdown].

Definition finish_report (state : SimpleClientGoalState) : list Event :=
  if is_SUCCEEDED state
  then [Log INFO "5. Pick and place commands successfull" []]
  else [Log ERROR "6. Pick and place did not succeed: %s" [ArgString (toString state)]].

(** What [resetArm] adds to the trace, by the answer of the service. *)
Definition resetArm_events (o : BlockManipulationAction)
    (reply : option SendHomeService.Response) : list Event :=
  [Log INFO "1. Resetting arm to home position" [];
   ServiceCall (SendHomeService.request (home_srv_ o))] ++
  match reply with
  | Some _ =>
      [ServiceReturn true;
       Log INFO "2. Detecting blocks using PCL" [];
       SendGoal (DetectGoal (block_detection_goal_ o))]
  | None =>
      [ServiceReturn false;
       Log ERROR ("Failed to call service /send_home " ++ String (Ascii.ascii_of_nat 10) "")%string
         [ArgResponse (SendHomeService.response (home_srv_ o))]]
  end.

(** The node as a done-callback finds it: its client no longer tracks the
    goal. *)
Definition acknowledged (c : Completion) (n : Node) : Node :=
  mkNode (with_client (completion_endpoint c) (track false) (this n))
    (trace n ++ [DoneCallback (completion_endpoint c) (completion_state c)])
    (shutdown_requested n) (home_calls n).

(** What the constructor writes before it calls [resetArm]. *)
Definition startup_events (o : BlockManipulationAction) : list Event :=
  [Log INFO "Block size %f" [ArgDouble (block_size o)];
   Log INFO "Table height %f" [ArgDouble (z_down o)];
   Log INFO "Finished initializing, waiting for servers:" [];
   Log INFO "- Waiting for block detection server." [];
   WaitForServer block_detection;
   Log INFO "- Waiting for interactive manipulation." [];
   WaitForServer interactive_manipulation;
   Log INFO "- Waiting for pick and place server." [];
   WaitForServer pick_place;
   Log INFO "- Waiting for send home service." [];
   WaitForServer send_home;
   Log INFO " " []].

(** What [finish] writes before it restarts the demo. *)
Definition restart_banner : list Event :=
  [Log INFO " " [];
   Log INFO "Restarting Demo --------------------------------------------- " []].

(** The trace passes the single-slot monitor, and the clients' flags agree
    with the slot it ends in. *)
Definition orderly (n : Node) : Prop :=
  exists slot, monitor None (trace n) = Some slot /\ flags n = slot_flags slot.

(** The trace shows as many reset calls as the node made; every call but
    the last one succeeded and was followed by one Detect goal; a last call
    that failed left nothing outstanding. *)
Definition reset_discipline (n : Node) : Prop :=
  exists k,
    home_calls n = S k /\
    calls_made (trace n) = S k /\
    (forall i, i < k -> home_service i <> None) /\
    match home_service k with
    | Some _ => goals_sent block_detection (trace n) = S k
    | None => goals_sent block_detection (trace n) = k /\
              flags n = (false, false, false)
    end.

(** ** More observations of a trace *)

Definition is_wait (e : Event) : bool :=
  match e with WaitForServer _ => true | _ => false end.

(** The endpoints a trace waited for, in order. *)
Definition waits (t : list Event) : list Event := filter is_wait t.

Definition is_shutdown (e : Event) : bool :=
  match e with Shutdown => true | _ => false end.

(** How many times a trace called [ros::shutdown]. *)
Definition shutdowns (t : list Event) : nat := length (filter is_shutdown t).

Definition is_done (ep : Endpoint) (e : Event) : bool :=
  match e with
  | DoneCallback ep' _ => Endpoint_eqb ep ep'
  | _ => false
  end.

(** How many done-callbacks of [ep] a trace ran. *)
Definition completions (ep : Endpoint) (t : list Event) : nat :=
  length (filter (is_done ep) t).

Definition is_failed_done (e : Event) : bool :=
  match e with
  | DoneCallback _ state => negb (is_SUCCEEDED state)
  | _ => false
  end.

Definition is_failed_return (e : Event) : bool :=
  match e with ServiceReturn false => true | _ => false end.

Definition is_error (e : Event) : bool :=
  match e with Log ERROR _ _ => true | _ => false end.

(** Goals that ended in a state other than SUCCEEDED, reset calls that
    returned false, and ROS_ERROR lines. *)
Definition failed_completions (t : list Event) : nat :=
  length (filter is_failed_done t).

Definition failed_calls (t : list Event) : nat :=
  length (filter is_failed_return t).

Definition errors (t : list Event) : nat := length (filter is_error t).

(** The done-callbacks after which the node calls [ros::shutdown]: a Detect
    or Select goal that did not succeed, and, with the run-once flag set,
    any PickPlace completion. *)
Definition causes_shutdown (run_once : bool) (e : Event) : bool :=
  match e with
  | DoneCallback block_detection state
  | DoneCallback interactive_manipulation state => negb (is_SUCCEEDED state)
  | DoneCallback pick_place _ => run_once
  | _ => false
  end.

(** What a done-callback adds to the trace of the node it runs on. *)
Definition callback_events (c : Completion) (n : Node) : list Event :=
  match c with
  | BlockDetectionDone state _ =>
      addBlocks_report state ++
      [SendGoal (SelectGoal (interactive_manipulation_goal_ (this n)))]
  | InteractiveBlockManipulationDone state _ =>
      pickAndPlace_report state ++
      [SendGoal (PickPlaceGoal_ (pick_place_goal_ (this n)))]
  | PickPlaceDone state _ =>
      finish_report state ++
      (if once (this n)
       then [Log INFO "Shutting down" []; Shutdown]
       else restart_banner ++
            resetArm_events (this n) (home_service (home_calls n)))
  end.

(** The clients' flags once a done-callback has returned. *)
Definition callback_flags (c : Completion) (n : Node) : bool * bool * bool :=
  let '(d, s, p) := flags n in
  match c with
  | BlockDetectionDone _ _ => (false, true, p)
  | InteractiveBlockManipulationDone _ _ => (d, false, true)
  | PickPlaceDone _ _ =>
      if once (this n) then (d, s, false)
      else match home_service (home_calls n) with
           | Some _ => (true, s, false)
           | None => (d, s, false)
           end
  end.

(** The stage that follows a stage in the cycle of action goals. *)
Definition next_stage (ep : Endpoint) : Endpoint :=
  match ep with
  | block_detection => interactive_manipulation
  | interactive_manipulation => pick_place
  | pick_place => block_detection
  | send_home => send_home
  end.

(** Detect, Select, PickPlace, Detect, ... *)
Definition stage (k : nat) : Endpoint := Nat.iter k next_stage block_detection.

(** How far the four request counters of a trace may be apart, by the
    client that is waiting. *)
Definition in_step (n : Node) : Prop :=
  let calls := calls_made (trace n) in
  let det := goals_sent block_detection (trace n) in
  let sel := goals_sent interactive_manipulation (trace n) in
  let pick := goals_sent pick_place (trace n) in
  match flags n with
  | (true, false, false) => calls = det /\ det = S sel /\ sel = pick
  | (false, true, false) => calls = det /\ det = sel /\ sel = S pick
  | (false, false, true) => calls = det /\ det = sel /\ sel = pick
  | (false, false, false) =>
      det = sel /\ sel = pick /\ (calls = det \/ calls = S det)
  | _ => False
  end.

(** Why a node has nothing outstanding: a reset call failed, or the
    run-once flag is set and a PickPlace completion was handled; a node that
    still waits for a goal has seen neither. *)
Definition halt_reason (run_once : bool) (n : Node) : Prop :=
  match flags n with
  | (false, false, false) =>
      failed_calls (trace n) = 1 \/
      (run_once = true /\ completions pick_place (trace n) = 1)
  | _ =>
      failed_calls (trace n) = 0 /\
      (run_once = true -> completions pick_place (trace n) = 0)
  end.

(** Where the requests of a trace stand in the cycle Reset, Detect, Select,
    PickPlace, by the client that is waiting: some number of full cycles
    followed by the first requests of the next one. *)
Definition on_cycle (o : BlockManipulationAction) (n : Node) : Prop :=
  exists k,
    match flags n with
    | (true, false, false) =>
        requests (trace n) = concat (repeat (cycle o) k) ++ firstn 2 (cycle o)
    | (false, true, false) =>
        requests (trace n) = concat (repeat (cycle o) k) ++ firstn 3 (cycle o)
    | (false, false, true) =>
        requests (trace n) = concat (repeat (cycle o) (S k))
    | (false, false, false) =>
        requests (trace n) = concat (repeat (cycle o) k) \/
        requests (trace n) = concat (repeat (cycle o) k) ++ firstn 1 (cycle o)
    | _ => False
    end.

(** ** Concrete environments *)

(** A parameter server with none of the seven parameters set. *)
Definition default_params : ParamServer :=
  mkParams (fun _ => None) (fun _ => None) (fun _ => None).

(** A parameter server that only sets the run-once flag. *)
Definition once_params : ParamServer :=
  mkParams (fun _ => None) (fun _ => None)
    (fun name => if String.eqb name "once" then Some true else None).

(** /send_home answers every call. *)
Definition home_always : nat -> option SendHomeService.Response :=
  fun _ => Some (SendHomeService.mkResponse true).

(** /send_home fails every call. *)
Definition home_never : nat -> option SendHomeService.Response :=
  fun _ => None.

(** /send_home answers the first call and fails afterwards. *)
Definition home_first_only : nat -> option SendHomeService.Response :=
  fun k => match k with
           | 0 => Some (SendHomeService.mkResponse true)
           | S _ => None
           end.

(** ** What each member function does to a node *)

Lemma resetArm_succeeds n r :
  home_service (home_calls n) = Some r ->
  execState resetArm n =
  mkNode
    (with_block_detection_action_ (track true)
       (with_home_srv_ (fun s => SendHomeService.mk (SendHomeService.request s) r)
          (this n)))
    (trace n ++ resetArm_events (this n) (Some r))
    (shutdown_requested n) (S (home_calls n)).
Proof.
  intros H. unfold resetArm, home_service_call, execState. cbn.
  rewrite H. cbn. rewrite <- !app_assoc. reflexivity.
Qed.

Lemma resetArm_fails n :
  home_service (home_calls n) = None ->
  execState resetArm n =
  mkNode (this n) (trace n ++ resetArm_events (this n) None)
    (shutdown_requested n) (S (home_calls n)).
Proof.
  intros H. unfold resetArm, home_service_call, execState. cbn.
  rewrite H. cbn. rewrite <- !app_assoc. reflexivity.
Qed.

Lemma addBlocks_effect state result n :
  execState (addBlocks state result) n =
  mkNode (with_interactive_manipulation_action_ (track true) (this n))
    (trace n ++ addBlocks_report state ++
     [SendGoal (SelectGoal (interactive_manipulation_goal_ (this n)))])
    (if is_SUCCEEDED state then shutdown_requested n else true)
    (home_calls n).
Proof.
  unfold addBlocks, addBlocks_report, execState.
  destruct (is_SUCCEEDED state); cbn; rewrite <- !app_assoc; reflexivity.
Qed.

Lemma pickAndPlace_effect state result n :
  execState (pickAndPlace state result) n =
  mkNode (with_pick_place_action_ (track true) (this n))
    (trace n ++ pickAndPlace_report state ++
     [SendGoal (PickPlaceGoal_ (pick_place_goal_ (this n)))])
    (if is_SUCCEEDED state then shutdown_requested n else true)
    (home_calls n).
Proof.
  unfold pickAndPlace, pickAndPlace_report, execState.
  destruct (is_SUCCEEDED state); cbn; rewrite <- !app_assoc; reflexivity.
Qed.

Lemma finish_halts state result n :
  once (this n) = true ->
  execState (finish state result) n =
  mkNode (this n)
    (trace n ++ finish_report state ++ [Log INFO "Shutting down" []; Shutdown])
    true (home_calls n).
Proof.
  intros H. unfold finish, finish_report, execState.
  destruct (is_SUCCEEDED state); cbn; rewrite H; cbn;
    rewrite <- !app_assoc; reflexivity.
Qed.

Lemma finish_restarts state result n :
  once (this n) = false ->
  execState (finish state result) n =
  execState resetArm
    (mkNode (this n) (trace n ++ finish_report state ++ restart_banner)
       (shutdown_requested n) (home_calls n)).
Proof.
  intros H. unfold finish, finish_report, execState.
  destruct (is_SUCCEEDED state); cbn; rewrite H; cbn;
    rewrite <- !app_assoc; reflexivity.
Qed.

Lemma deliver_inv c n n' :
  deliver c n = Some n' ->
  awaiting (completion_endpoint c) n = true /\
  n' = execState (callback c) (acknowledged c n).
Proof.
  unfold deliver. destruct (awaiting (completion_endpoint c) n); [|discriminate].
  intros H. injection H as <-. split; [reflexivity|].
  unfold execState. cbn. reflexivity.
Qed.

Lemma deliver_enabled c n :
  awaiting (completion_endpoint c) n = true ->
  deliver c n = Some (execState (callback c) (acknowledged c n)).
Proof.
  unfold deliver. intros ->. unfold execState. cbn. reflexivity.
Qed.

Lemma run_app cs1 cs2 n :
  run (cs1 ++ cs2) n =
  match run cs1 n with Some n' => run cs2 n' | None => None end.
Proof.
  revert n. induction cs1 as [|c cs1 IH]; intros n; cbn; [reflexivity|].
  destruct (deliver c n); [apply IH | reflexivity].
Qed.

(** Anything that holds when the constructor returns and is kept by every
    delivered callback holds after every run. *)
Lemma run_invariant (P : Node -> Prop) :
  (forall c n n', P n -> deliver c n = Some n' -> P n') ->
  forall cs n n', P n -> run cs n = Some n' -> P n'.
Proof.
  intros Hstep. induction cs as [|c cs IH]; intros n n' Hn Hrun; cbn in Hrun.
  - injection Hrun as <-. exact Hn.
  - destruct (deliver c n) as [m|] eqn:Hd; [|discriminate].
    eapply IH; [|exact Hrun]. eapply Hstep; eassumption.
Qed.

(** Case analysis on a delivered callback: one goal per path through
    [addBlocks], [pickAndPlace] and [finish] (halt, restart with the
    service answering, restart with the service failing). *)
Ltac callback_paths H c n :=
  let Hw := fresh "Hawait" in
  let Honce := fresh "Honce" in
  let Hreply := fresh "Hreply" in
  let r := fresh "reply" in
  apply deliver_inv in H; destruct H as [Hw ->];
  destruct c as [? ? | ? ? | ? ?]; cbn [callback] in *;
  [ rewrite addBlocks_effect
  | rewrite pickAndPlace_effect
  | match goal with
    | |- context [execState (finish ?s ?res) ?m] =>
        destruct (once (this m)) eqn:Honce;
        [ rewrite (finish_halts s res m Honce)
        | rewrite (finish_restarts s res m Honce);
          match goal with
          | |- context [execState resetArm ?m'] =>
              destruct (home_service (home_calls m')) as [r|] eqn:Hreply;
              [ rewrite (resetArm_succeeds m' r Hreply)
              | rewrite (resetArm_fails m' Hreply) ]
          end ]
    end ];
  cbn [this trace shutdown_requested home_calls] in *.

(** ** The stored payloads are frozen *)

Lemma resetArm_frame n :
  configuration (this (execState resetArm n)) = configuration (this n) /\
  payloads (this (execState resetArm n)) = payloads (this n).
Proof.
  destruct (home_service (home_calls n)) as [r|] eqn:H.
  - rewrite (resetArm_succeeds _ _ H). split; reflexivity.
  - rewrite (resetArm_fails _ H). split; reflexivity.
Qed.

Lemma callback_frame c n :
  configuration (this (execState (callback c) n)) = configuration (this n) /\
  payloads (this (execState (callback c) n)) = payloads (this n).
Proof.
  destruct c as [s r | s r | s r]; cbn [callback].
  - rewrite addBlocks_effect. split; reflexivity.
  - rewrite pickAndPlace_effect. split; reflexivity.
  - destruct (once (this n)) eqn:Honce.
    + rewrite (finish_halts _ _ _ Honce). split; reflexivity.
    + rewrite (finish_restarts _ _ _ Honce).
      destruct (resetArm_frame
                  (mkNode (this n) (trace n ++ finish_report s ++ restart_banner)
                     (shutdown_requested n) (home_calls n))) as [-> ->].
      split; reflexivity.
Qed.

Lemma acknowledged_frame c n :
  configuration (this (acknowledged c n)) = configuration (this n) /\
  payloads (this (acknowledged c n)) = payloads (this n).
Proof. destruct c; split; reflexivity. Qed.

Lemma deliver_frame c n n' :
  deliver c n = Some n' ->
  configuration (this n') = configuration (this n) /\
  payloads (this n') = payloads (this n).
Proof.
  intros H. apply deliver_inv in H. destruct H as [_ ->].
  destruct (callback_frame c (acknowledged c n)) as [-> ->].
  apply acknowledged_frame.
Qed.

Lemma boot_unfold ps :
  boot ps =
  execState resetArm
    (mkNode (initialize ps) (startup_events (initialize ps)) false 0).
Proof. reflexivity. Qed.

Lemma boot_frame ps :
  configuration (this (boot ps)) = configuration (initialize ps) /\
  payloads (this (boot ps)) = payloads (initialize ps).
Proof. rewrite boot_unfold. apply resetArm_frame. Qed.

(** ** One request at a time *)

Lemma monitor_app t1 t2 slot :
  monitor slot (t1 ++ t2) =
  match monitor slot t1 with Some slot' => monitor slot' t2 | None => None end.
Proof.
  revert slot. induction t1 as [|e t1 IH]; intros slot; cbn; [reflexivity|].
  destruct (slot_step slot e); [apply IH | reflexivity].
Qed.

Lemma slot_step_settle slot e slot' :
  slot_step slot e = Some slot' ->
  settle (slot_list slot) e = slot_list slot'.
Proof.
  unfold slot_step, settle.
  destruct (request_to e) as [ep|].
  - destruct slot; [discriminate|]. intros H. injection H as <-. reflexivity.
  - destruct (answer_from e) as [ep|].
    + destruct slot as [ep'|]; [|discriminate]. cbn.
      destruct (Endpoint_eqb ep ep'); [|discriminate].
      intros H. injection H as <-. reflexivity.
    + intros H. injection H as <-. reflexivity.
Qed.

Lemma monitor_unanswered t slot slot' :
  monitor slot t = Some slot' ->
  fold_left settle t (slot_list slot) = slot_list slot'.
Proof.
  revert slot. induction t as [|e t IH]; intros slot; cbn.
  - intros H. injection H as <-. reflexivity.
  - destruct (slot_step slot e) as [s1|] eqn:Hs; [|discriminate].
    intros H. rewrite (slot_step_settle _ _ _ Hs). apply IH, H.
Qed.

(** A trace the monitor accepts never has two requests open, and finds
    none open whenever it issues one. *)
Lemma monitor_sound t slot :
  monitor None t = Some slot ->
  forall t1 t2, t = t1 ++ t2 ->
    length (unanswered t1) <= 1 /\
    (forall e t2', t2 = e :: t2' -> is_request e = true -> unanswered t1 = []).
Proof.
  intros Hm t1 t2 ->. rewrite monitor_app in Hm.
  destruct (monitor None t1) as [s1|] eqn:H1; [|discriminate].
  pose proof (monitor_unanswered _ _ _ H1) as Hu. cbn in Hu.
  unfold unanswered. rewrite Hu. split.
  - destruct s1; cbn; lia.
  - intros e t2' -> Hreq. cbn in Hm.
    unfold is_request in Hreq. unfold slot_step in Hm.
    destruct (request_to e); [|discriminate].
    destruct s1; [discriminate | reflexivity].
Qed.

Lemma awaiting_slot ep n slot :
  flags n = slot_flags slot -> awaiting ep n = true -> slot = Some ep.
Proof.
  unfold flags, awaiting. intros Hf Hw.
  destruct ep; cbn in Hw; [discriminate| | |];
    rewrite Hw in Hf; destruct slot as [[]|]; cbn in Hf; congruence.
Qed.

Lemma flags_slot_others n ep :
  flags n = slot_flags (Some ep) ->
  flags (mkNode (with_client ep (track false) (this n)) (trace n)
           (shutdown_requested n) (home_calls n)) = (false, false, false).
Proof.
  unfold flags. destruct ep; cbn; intros H; injection H as H1 H2 H3;
    rewrite ?H1, ?H2, ?H3; reflexivity.
Qed.

Lemma resetArm_orderly n :
  monitor None (trace n) = Some None ->
  flags n = (false, false, false) ->
  orderly (execState resetArm n).
Proof.
  intros Hm Hf. unfold flags in Hf. injection Hf as H1 H2 H3.
  destruct (home_service (home_calls n)) as [r|] eqn:H.
  - rewrite (resetArm_succeeds _ _ H). exists (Some block_detection).
    cbn [trace]. rewrite monitor_app, Hm. split; [reflexivity|].
    unfold flags; cbn. rewrite H2, H3. reflexivity.
  - rewrite (resetArm_fails _ H). exists None.
    cbn [trace]. rewrite monitor_app, Hm. split; [reflexivity|].
    unfold flags; cbn. rewrite H1, H2, H3. reflexivity.
Qed.

Lemma monitor_extend t slot t' :
  monitor None t = Some slot ->
  monitor None (t ++ t') = monitor slot t'.
Proof. intros H. rewrite monitor_app, H. reflexivity. Qed.

Lemma monitor_quiet slot t t' :
  (forall e, In e t -> request_to e = None /\ answer_from e = None) ->
  monitor slot (t ++ t') = monitor slot t'.
Proof.
  induction t as [|e t IH]; intros H; cbn; [reflexivity|].
  destruct (H e (or_introl eq_refl)) as [Hr Ha].
  unfold slot_step. rewrite Hr, Ha. apply IH.
  intros e' He'. apply H. right. exact He'.
Qed.

Lemma report_silent state e :
  In e (addBlocks_report state) \/ In e (pickAndPlace_report state) \/
  In e (finish_report state) \/ In e restart_banner ->
  request_to e = None /\ answer_from e = None.
Proof.
  unfold addBlocks_report, pickAndPlace_report, finish_report, restart_banner.
  destruct (is_SUCCEEDED state); cbn; intros H;
    repeat match goal with
           | H : _ \/ _ |- _ => destruct H as [H|H]
           | H : False |- _ => destruct H
           | H : _ = e |- _ => subst e
           end; split; reflexivity.
Qed.

Lemma acknowledged_monitor c n slot :
  monitor None (trace n) = Some slot ->
  flags n = slot_flags slot ->
  awaiting (completion_endpoint c) n = true ->
  monitor None (trace (acknowledged c n)) = Some None /\
  flags (acknowledged c n) = (false, false, false).
Proof.
  intros Hm Hf Hw.
  pose proof (awaiting_slot _ _ _ Hf Hw) as ->.
  split.
  - cbn [acknowledged trace]. rewrite monitor_app, Hm. cbn.
    unfold slot_step. cbn.
    destruct (completion_endpoint c); reflexivity.
  - apply (flags_slot_others n _ Hf).
Qed.

Lemma deliver_orderly c n n' :
  orderly n -> deliver c n = Some n' -> orderly n'.
Proof.
  intros (slot & Hm & Hf) H.
  pose proof H as H0. apply deliver_inv in H0. destruct H0 as [Hw0 _].
  destruct (acknowledged_monitor c n slot Hm Hf Hw0) as [Hm' Hf'].
  unfold flags in Hf'. injection Hf' as F1 F2 F3.
  callback_paths H c n.
  - exists (Some interactive_manipulation). cbn [trace]. split.
    + rewrite (monitor_extend _ _ _ Hm'),
        (monitor_quiet _ (addBlocks_report state)); [reflexivity|].
      intros e He. apply (report_silent state). tauto.
    + unfold flags; cbn in *; congruence.
  - exists (Some pick_place). cbn [trace]. split.
    + rewrite (monitor_extend _ _ _ Hm'),
        (monitor_quiet _ (pickAndPlace_report state)); [reflexivity|].
      intros e He. apply (report_silent state). tauto.
    + unfold flags; cbn in *; congruence.
  - exists None. cbn [trace]. split.
    + rewrite (monitor_extend _ _ _ Hm'),
        (monitor_quiet _ (finish_report state)); [reflexivity|].
      intros e He. apply (report_silent state). tauto.
    + unfold flags; cbn in *; congruence.
  - exists (Some block_detection). cbn [trace]. split.
    + rewrite <- app_assoc, (monitor_extend _ _ _ Hm'), <- app_assoc,
        (monitor_quiet _ (finish_report state)),
        (monitor_quiet _ restart_banner); [reflexivity| |];
        intros e He; apply (report_silent state); tauto.
    + unfold flags; cbn in *; congruence.
  - exists None. cbn [trace]. split.
    + rewrite <- app_assoc, (monitor_extend _ _ _ Hm'), <- app_assoc,
        (monitor_quiet _ (finish_report state)),
        (monitor_quiet _ restart_banner); [reflexivity| |];
        intros e He; apply (report_silent state); tauto.
    + unfold flags; cbn in *; congruence.
Qed.

Lemma boot_orderly ps : orderly (boot ps).
Proof.
  rewrite boot_unfold. apply resetArm_orderly; reflexivity.
Qed.

Lemma run_orderly ps cs n : run cs (boot ps) = Some n -> orderly n.
Proof.
  apply (run_invariant orderly deliver_orderly). apply boot_orderly.
Qed.

(** ** Reset calls and the Detect goals that follow them *)

Lemma goals_sent_app ep t1 t2 :
  goals_sent ep (t1 ++ t2) = goals_sent ep t1 + goals_sent ep t2.
Proof. unfold goals_sent. rewrite filter_app, length_app. reflexivity. Qed.

Lemma calls_made_app t1 t2 :
  calls_made (t1 ++ t2) = calls_made t1 + calls_made t2.
Proof. unfold calls_made. rewrite filter_app, length_app. reflexivity. Qed.

Lemma goals_sent_report ep state :
  goals_sent ep (addBlocks_report state) = 0 /\
  goals_sent ep (pickAndPlace_report state) = 0 /\
  goals_sent ep (finish_report state) = 0.
Proof.
  unfold addBlocks_report, pickAndPlace_report, finish_report.
  destruct (is_SUCCEEDED state); repeat split; reflexivity.
Qed.

Lemma calls_made_report state :
  calls_made (addBlocks_report state) = 0 /\
  calls_made (pickAndPlace_report state) = 0 /\
  calls_made (finish_report state) = 0.
Proof.
  unfold addBlocks_report, pickAndPlace_report, finish_report.
  destruct (is_SUCCEEDED state); repeat split; reflexivity.
Qed.

Lemma resetArm_events_count o reply :
  calls_made (resetArm_events o reply) = 1 /\
  goals_sent block_detection (resetArm_events o reply) =
    match reply with Some _ => 1 | None => 0 end.
Proof. destruct reply; split; reflexivity. Qed.

Lemma awaiting_flags ep n :
  awaiting ep n = true -> flags n <> (false, false, false).
Proof.
  unfold awaiting, flags. destruct ep; cbn; [discriminate| | |];
    intros -> H; discriminate.
Qed.

(** Counting the calls and the Detect goals of an extended trace. *)
Ltac count_events state :=
  cbn [trace home_calls acknowledged this] in *;
  rewrite ?calls_made_app, ?goals_sent_app;
  let G1 := fresh in let G2 := fresh in let G3 := fresh in
  let C1 := fresh in let C2 := fresh in let C3 := fresh in
  destruct (goals_sent_report block_detection state) as (G1 & G2 & G3);
  destruct (calls_made_report state) as (C1 & C2 & C3);
  rewrite ?G1, ?G2, ?G3, ?C1, ?C2, ?C3;
  repeat match goal with
         | |- context [resetArm_events ?o ?r] =>
             let R1 := fresh in let R2 := fresh in
             destruct (resetArm_events_count o r) as [R1 R2];
             rewrite ?R1, ?R2; clear R1 R2
         end;
  cbn; try lia.

Lemma deliver_reset_discipline c n n' :
  orderly n -> reset_discipline n -> deliver c n = Some n' ->
  orderly n' /\ reset_discipline n'.
Proof.
  intros Ho (k & Hk & Hcalls & Hprev & Hlast) H.
  split; [exact (deliver_orderly c n n' Ho H)|].
  destruct Ho as (slot & Hm & Hf).
  pose proof H as H0. apply deliver_inv in H0. destruct H0 as [Hw0 _].
  destruct (acknowledged_monitor c n slot Hm Hf Hw0) as [_ Hidle].
  destruct (home_service k) as [r0|] eqn:Hr0;
    [|destruct Hlast as [_ Hl]; exfalso;
      exact (awaiting_flags _ _ Hw0 Hl)].
  callback_paths H c n.
  - exists k. rewrite Hr0. repeat split; try assumption; count_events state.
  - exists k. rewrite Hr0. repeat split; try assumption; count_events state.
  - exists k. rewrite Hr0. repeat split; try assumption; count_events state.
  - exists (S k). cbn [trace home_calls acknowledged] in *.
    rewrite Hk in Hreply. rewrite Hreply.
    repeat split; try (count_events state).
    intros i Hi. destruct (Nat.eq_dec i k) as [->|Hne].
    + rewrite Hr0. discriminate.
    + apply Hprev. lia.
  - exists (S k). cbn [trace home_calls acknowledged] in *.
    rewrite Hk in Hreply. rewrite Hreply.
    repeat split; try (count_events state); try exact Hidle.
    intros i Hi. destruct (Nat.eq_dec i k) as [->|Hne].
    + rewrite Hr0. discriminate.
    + apply Hprev. lia.
Qed.

Lemma boot_reset_discipline ps : reset_discipline (boot ps).
Proof.
  rewrite boot_unfold. exists 0.
  set (n0 := mkNode (initialize ps) (startup_events (initialize ps)) false 0).
  destruct (home_service 0) as [r|] eqn:H.
  - rewrite (resetArm_succeeds n0 r H). cbn [home_calls trace n0].
    repeat split; intros; lia.
  - rewrite (resetArm_fails n0 H). cbn [home_calls trace n0].
    repeat split; intros; lia.
Qed.

Lemma run_reset_discipline ps cs n :
  run cs (boot ps) = Some n -> orderly n /\ reset_discipline n.
Proof.
  apply (run_invariant (fun m => orderly m /\ reset_discipline m)).
  - intros c m m' [Ho Hr] H. exact (deliver_reset_discipline c m m' Ho Hr H).
  - split; [apply boot_orderly | apply boot_reset_discipline].
Qed.

(** ** Every request carries a stored payload *)

Lemma carries_quiet p t :
  (forall e, In e t -> request_to e = None /\ answer_from e = None) ->
  Forall (carries p) t.
Proof.
  intros H. apply Forall_forall. intros e He.
  destruct (H e He) as [Hr _]. destruct e; try exact I; discriminate.
Qed.

Lemma carries_report p state :
  Forall (carries p) (addBlocks_report state) /\
  Forall (carries p) (pickAndPlace_report state) /\
  Forall (carries p) (finish_report state) /\
  Forall (carries p) restart_banner.
Proof.
  repeat split; apply carries_quiet; intros e He;
    apply (report_silent state); tauto.
Qed.

Lemma carries_resetArm o reply :
  Forall (carries (payloads o)) (resetArm_events o reply).
Proof.
  unfold resetArm_events. destruct reply; cbn;
    repeat constructor.
Qed.

Lemma acknowledged_payloads c n :
  payloads (this (acknowledged c n)) = payloads (this n).
Proof. destruct c; reflexivity. Qed.

Lemma deliver_carries c n n' :
  Forall (carries (payloads (this n))) (trace n) ->
  deliver c n = Some n' ->
  Forall (carries (payloads (this n'))) (trace n').
Proof.
  intros Ht H.
  destruct (deliver_frame c n n' H) as [_ Hp]. rewrite Hp. clear Hp.
  pose proof (acknowledged_payloads c n) as Hack.
  assert (Forall (carries (payloads (this n))) (trace (acknowledged c n))) as Ht'.
  { cbn [acknowledged trace]. apply Forall_app. split; [exact Ht|].
    repeat constructor. }
  apply deliver_inv in H. destruct H as [_ ->].
  revert Hack Ht'. generalize (acknowledged c n) as m. intros m Hack Ht'.
  destruct (carries_report (payloads (this n)) (completion_state c))
    as (R1 & R2 & R3 & R4).
  rewrite <- Hack in *.
  destruct c as [s r | s r | s r]; cbn [callback completion_state] in *.
  - rewrite addBlocks_effect. cbn [trace].
    rewrite !Forall_app. repeat split; try assumption. repeat constructor.
  - rewrite pickAndPlace_effect. cbn [trace].
    rewrite !Forall_app. repeat split; try assumption. repeat constructor.
  - destruct (once (this m)) eqn:Honce.
    + rewrite (finish_halts s r m Honce). cbn [trace].
      rewrite !Forall_app. repeat split; try assumption. repeat constructor.
    + rewrite (finish_restarts s r m Honce).
      match goal with
      | |- context [execState resetArm ?m'] =>
          destruct (home_service (home_calls m')) as [reply|] eqn:Hreply;
          [ rewrite (resetArm_succeeds m' reply Hreply)
          | rewrite (resetArm_fails m' Hreply) ]
      end; cbn [trace this];
        rewrite !Forall_app; repeat split; try assumption;
        apply carries_resetArm.
Qed.

Lemma boot_carries ps :
  Forall (carries (payloads (this (boot ps)))) (trace (boot ps)).
Proof.
  destruct (boot_frame ps) as [_ ->].
  rewrite boot_unfold.
  set (n0 := mkNode (initialize ps) (startup_events (initialize ps)) false 0).
  destruct (home_service (home_calls n0)) as [r|] eqn:H;
    [ rewrite (resetArm_succeeds n0 r H) | rewrite (resetArm_fails n0 H) ];
    cbn [trace n0 this]; apply Forall_app; split;
    try apply (carries_resetArm (initialize ps));
    repeat constructor.
Qed.

(** After every run the stored payloads are the ones the constructor built
    and every request in the trace carried one of them. *)
Lemma run_carries ps cs n :
  run cs (boot ps) = Some n ->
  configuration (this n) = configuration (initialize ps) /\
  payloads (this n) = payloads (initialize ps) /\
  Forall (carries (payloads (initialize ps))) (trace n).
Proof.
  intros H.
  assert (configuration (this n) = configuration (initialize ps) /\
          payloads (this n) = payloads (initialize ps) /\
          Forall (carries (payloads (this n))) (trace n)) as (Hc & Hp & Ht).
  { revert H.
    apply (run_invariant
             (fun m => configuration (this m) = configuration (initialize ps) /\
                       payloads (this m) = payloads (initialize ps) /\
                       Forall (carries (payloads (this m))) (trace m))).
    - intros c m m' (Hc & Hp & Ht) Hd.
      destruct (deliver_frame c m m' Hd) as [Hc' Hp'].
      repeat split; [congruence | congruence |].
      exact (deliver_carries c m m' Ht Hd).
    - destruct (boot_frame ps) as [Hc Hp].
      repeat split; [exact Hc | exact Hp | apply boot_carries]. }
  rewrite Hp in Ht. auto.
Qed.

(** ** Halting *)

Lemma idle_stuck n :
  flags n = (false, false, false) -> forall c, deliver c n = None.
Proof.
  intros Hf c. unfold deliver.
  destruct (awaiting (completion_endpoint c) n) eqn:Hw; [|reflexivity].
  exfalso. exact (awaiting_flags _ _ Hw Hf).
Qed.

Lemma actions_app t1 t2 : actions (t1 ++ t2) = actions t1 ++ actions t2.
Proof. apply filter_app. Qed.

Lemma actions_finish_report state :
  actions (finish_report state) = [] /\ actions restart_banner = [].
Proof. unfold finish_report. destruct (is_SUCCEEDED state); split; reflexivity. Qed.

(** C3. When the PickPlace goal completes, what the controller does next is
    decided by the run-once flag alone.  With the flag set it requests
    shutdown once, sends nothing, and no callback can be delivered
    afterwards; with the flag clear it calls the reset service again (and,
    if the service answers, sends the next Detect goal).  Neither case
    depends on the reported state. *)
Theorem finish_governed_by_once ps cs n state result :
  run cs (boot ps) = Some n ->
  awaiting pick_place n = true ->
  exists n' t,
    deliver (PickPlaceDone state result) n = Some n' /\
    trace n' = trace n ++ DoneCallback pick_place state :: t /\
    actions t =
      (if once (initialize ps) then [Shutdown]
       else ServiceCall (SendHomeService.mkRequest true) ::
            match home_service (home_calls n) with
            | Some _ => [SendGoal (DetectGoal (block_detection_goal_ (initialize ps)))]
            | None => []
            end) /\
    shutdown_requested n' = (shutdown_requested n || once (initialize ps))%bool /\
    (once (initialize ps) = true -> forall c, deliver c n' = None).
Proof.
  intros Hrun Hw.
  destruct (run_orderly ps cs n Hrun) as (slot & Hm & Hf).
  destruct (run_carries ps cs n Hrun) as (Hc & Hp & _).
  assert (once (this n) = once (initialize ps)) as Honce0
    by (unfold configuration in Hc; congruence).
  assert (block_detection_goal_ (this n) = block_detection_goal_ (initialize ps)
          /\ SendHomeService.request (home_srv_ (this n)) =
             SendHomeService.mkRequest true) as [Hg Hreq]
    by (unfold payloads in Hp; injection Hp as H1 H2 H3 H4;
        split; [exact H1 | rewrite H4; reflexivity]).
  set (c := PickPlaceDone state result).
  destruct (acknowledged_monitor c n slot Hm Hf Hw) as [_ Hidle].
  rewrite (deliver_enabled c n Hw). subst c. cbn [callback].
  destruct (actions_finish_report state) as [A1 A2].
  destruct (once (initialize ps)) eqn:Honce.
  - rewrite (finish_halts state result
               (acknowledged (PickPlaceDone state result) n) Honce0).
    eexists. eexists. split; [reflexivity|].
    cbn [trace acknowledged completion_endpoint completion_state
         shutdown_requested].
    split; [rewrite <- app_assoc; reflexivity|].
    split; [rewrite actions_app, A1; reflexivity|].
    split; [symmetry; apply orb_true_r|].
    intros _. apply idle_stuck. exact Hidle.
  - rewrite (finish_restarts state result
               (acknowledged (PickPlaceDone state result) n) Honce0).
    match goal with
    | |- context [execState resetArm ?m'] =>
        destruct (home_service (home_calls m')) as [reply|] eqn:Hreply;
        [ rewrite (resetArm_succeeds m' reply Hreply)
        | rewrite (resetArm_fails m' Hreply) ]
    end;
      cbn [home_calls acknowledged] in Hreply; rewrite Hreply;
      eexists; eexists; (split; [reflexivity|]);
      cbn [trace acknowledged completion_endpoint completion_state
           shutdown_requested this with_client];
      (split; [rewrite <- !app_assoc; reflexivity|]);
      (split; [rewrite !actions_app, A1, A2; cbn; rewrite ?Hg, Hreq; reflexivity|]);
      (split; [rewrite orb_false_r; reflexivity | discriminate]).
Qed.

(** C4. Once a reset call has failed, that call is the last reset call the
    node ever makes, the Detect goals it has sent are the ones that followed
    the earlier, successful resets (none at all when the first reset
    fails), no goal is outstanding and no callback can be delivered any
    more. *)
Theorem reset_failure_halts ps cs n i :
  run cs (boot ps) = Some n ->
  i < calls_made (trace n) ->
  home_service i = None ->
  calls_made (trace n) = S i /\
  goals_sent block_detection (trace n) = i /\
  flags n = (false, false, false) /\
  (forall c, deliver c n = None).
Proof.
  intros Hrun Hi Hfail.
  destruct (run_reset_discipline ps cs n Hrun)
    as (_ & k & Hk & Hcalls & Hprev & Hlast).
  rewrite Hcalls in *.
  assert (i = k) as ->.
  { destruct (Nat.eq_dec i k) as [E|E]; [exact E|].
    exfalso. apply (Hprev i); [lia | exact Hfail]. }
  rewrite Hfail in Hlast. destruct Hlast as [Hg Hidle].
  repeat split; try assumption. apply idle_stuck. exact Hidle.
Qed.

(** C6. In every run, at every point of the trace, at most one request is
    unanswered, and whenever the node issues a request (the reset call or a
    goal) every earlier request has been answered; the clients that still
    track a goal at the end are exactly the unanswered ones. *)
Theorem one_request_at_a_time ps cs n t1 t2 :
  run cs (boot ps) = Some n ->
  trace n = t1 ++ t2 ->
  length (unanswered t1) <= 1 /\
  (forall e t2', t2 = e :: t2' -> is_request e = true -> unanswered t1 = []) /\
  (exists slot, unanswered (trace n) = slot_list slot /\
                flags n = slot_flags slot).
Proof.
  intros Hrun Ht.
  destruct (run_orderly ps cs n Hrun) as (slot & Hm & Hf).
  destruct (monitor_sound (trace n) slot Hm t1 t2 Ht) as [H1 H2].
  repeat split; [exact H1 | exact H2 |].
  exists slot. split; [|exact Hf].
  exact (monitor_unanswered (trace n) None slot Hm).
Qed.

(** ** Full cycles *)

Lemma requests_app t1 t2 : requests (t1 ++ t2) = requests t1 ++ requests t2.
Proof. apply filter_app. Qed.

Lemma cycle_to_placing n r1 r2 :
  flags n = (true, false, false) ->
  exists n',
    run [BlockDetectionDone SUCCEEDED r1;
         InteractiveBlockManipulationDone SUCCEEDED r2] n = Some n' /\
    requests (trace n') =
      requests (trace n) ++
      [SendGoal (SelectGoal (interactive_manipulation_goal_ (this n)));
       SendGoal (PickPlaceGoal_ (pick_place_goal_ (this n)))] /\
    flags n' = (false, false, true) /\
    home_calls n' = home_calls n /\
    configuration (this n') = configuration (this n) /\
    payloads (this n') = payloads (this n).
Proof.
  destruct n as [o t sd k].
  destruct o as [[s1 p1 o1] [s2 p2 o2] [s3 p3 o3] g1 g2 g3 srv a b c d e f g].
  unfold flags. cbn. intros H. injection H as -> -> ->.
  unfold deliver, awaiting. cbn.
  eexists. split; [reflexivity|]. cbn.
  repeat split.
  rewrite <- !app_assoc. rewrite requests_app. reflexivity.
Qed.

Lemma successful_cycle n r1 r2 r3 reply :
  flags n = (true, false, false) ->
  once (this n) = false ->
  home_service (home_calls n) = Some reply ->
  exists n',
    run [BlockDetectionDone SUCCEEDED r1;
         InteractiveBlockManipulationDone SUCCEEDED r2;
         PickPlaceDone SUCCEEDED r3] n = Some n' /\
    requests (trace n') =
      requests (trace n) ++
      [SendGoal (SelectGoal (interactive_manipulation_goal_ (this n)));
       SendGoal (PickPlaceGoal_ (pick_place_goal_ (this n)));
       ServiceCall (SendHomeService.request (home_srv_ (this n)));
       SendGoal (DetectGoal (block_detection_goal_ (this n)))] /\
    flags n' = (true, false, false) /\
    home_calls n' = S (home_calls n) /\
    configuration (this n') = configuration (this n) /\
    payloads (this n') = payloads (this n).
Proof.
  intros Hf Honce Hreply.
  destruct (cycle_to_placing n r1 r2 Hf)
    as (n2 & Hrun2 & Hreq2 & Hf2 & Hk2 & Hc2 & Hp2).
  change [BlockDetectionDone SUCCEEDED r1;
          InteractiveBlockManipulationDone SUCCEEDED r2;
          PickPlaceDone SUCCEEDED r3]
    with ([BlockDetectionDone SUCCEEDED r1;
           InteractiveBlockManipulationDone SUCCEEDED r2] ++
          [PickPlaceDone SUCCEEDED r3]).
  rewrite run_app, Hrun2. cbn [run].
  set (c := PickPlaceDone SUCCEEDED r3).
  unfold flags in Hf2. injection Hf2 as F1 F2 F3.
  assert (awaiting (completion_endpoint c) n2 = true) as Hw by exact F3.
  rewrite (deliver_enabled c n2 Hw). subst c. cbn [callback].
  assert (once (this n2) = false) as Honce2
    by (unfold configuration in Hc2; congruence).
  rewrite (finish_restarts SUCCEEDED r3
             (acknowledged (PickPlaceDone SUCCEEDED r3) n2) Honce2).
  rewrite <- Hk2 in Hreply.
  match goal with
  | |- context [execState resetArm ?m'] =>
      rewrite (resetArm_succeeds m' reply Hreply)
  end.
  eexists. split; [reflexivity|].
  cbn [trace this home_calls acknowledged completion_endpoint
       completion_state with_client].
  unfold payloads in Hp2. injection Hp2 as P1 P2 P3 P4.
  repeat split.
  - rewrite !requests_app, Hreq2, <- !app_assoc. cbn. rewrite P1, P4.
    reflexivity.
  - unfold flags. cbn. rewrite F2. reflexivity.
  - rewrite Hk2. reflexivity.
  - exact Hc2.
  - unfold payloads. cbn. congruence.
Qed.

Lemma boot_first_request ps reply :
  home_service 0 = Some reply ->
  requests (trace (boot ps)) =
    [ServiceCall (SendHomeService.mkRequest true);
     SendGoal (DetectGoal (block_detection_goal_ (initialize ps)))] /\
  flags (boot ps) = (true, false, false) /\
  home_calls (boot ps) = 1.
Proof.
  intros H. rewrite boot_unfold.
  set (n0 := mkNode (initialize ps) (startup_events (initialize ps)) false 0).
  rewrite (resetArm_succeeds n0 reply H). repeat split.
Qed.

Lemma concat_repeat_snoc {A} (l : list A) N :
  concat (repeat l (S N)) = concat (repeat l N) ++ l.
Proof.
  induction N as [|N IH]; cbn; [rewrite app_nil_r; reflexivity|].
  cbn in IH. rewrite IH at 1. rewrite app_assoc. reflexivity.
Qed.

(** After [N] successful cycles the node has issued the requests of [N]
    full cycles followed by the reset call and Detect goal of the next one,
    and waits for block detection. *)
Lemma cycles_state ps N cs :
  once (initialize ps) = false ->
  successful_cycles N cs ->
  (forall i, i <= N -> home_service i <> None) ->
  exists n,
    run cs (boot ps) = Some n /\
    requests (trace n) =
      concat (repeat (cycle (initialize ps)) N) ++
      [ServiceCall (SendHomeService.mkRequest true);
       SendGoal (DetectGoal (block_detection_goal_ (initialize ps)))] /\
    flags n = (true, false, false) /\
    home_calls n = S N /\
    configuration (this n) = configuration (initialize ps) /\
    payloads (this n) = payloads (initialize ps).
Proof.
  intros Honce Hcs. induction Hcs as [|N cs r1 r2 r3 Hcs IH]; intros Hhome.
  - destruct (home_service 0) as [reply|] eqn:H0;
      [|exfalso; apply (Hhome 0); [lia | exact H0]].
    destruct (boot_first_request ps reply H0) as (Hr & Hf & Hk).
    destruct (boot_frame ps) as [Hc Hp].
    exists (boot ps). repeat split; assumption.
  - destruct IH as (n & Hrun & Hreq & Hf & Hk & Hc & Hp).
    { intros i Hi. apply Hhome. lia. }
    destruct (home_service (S N)) as [reply|] eqn:HN;
      [|exfalso; apply (Hhome (S N)); [lia | exact HN]].
    rewrite <- Hk in HN.
    assert (once (this n) = false) as Honce'
      by (unfold configuration in Hc; congruence).
    destruct (successful_cycle n r1 r2 r3 reply Hf Honce' HN)
      as (n' & Hrun' & Hreq' & Hf' & Hk' & Hc' & Hp').
    exists n'. rewrite run_app, Hrun.
    repeat split; try congruence.
    rewrite Hreq', Hreq, concat_repeat_snoc.
    unfold payloads in Hp. injection Hp as -> -> -> ->.
    unfold cycle. rewrite <- !app_assoc. reflexivity.
Qed.

(** ** Payloads *)

(** C8. Every request found in the trace of a run has the fields the
    constructor took from the parameters: the Detect goal is
    {frame, table height, block size}, the Select goal {block size, frame},
    the PickPlace goal {frame, lift height, gripper open, gripper closed,
    topic}, and the reset request is {sendHome = true}. *)
Theorem request_payloads ps cs n e :
  run cs (boot ps) = Some n ->
  In e (trace n) ->
  let o := initialize ps in
  match e with
  | SendGoal (DetectGoal g) =>
      g = BlockDetectionGoal.mk (arm_link o) (z_down o) (block_size o)
  | SendGoal (SelectGoal g) =>
      g = InteractiveBlockManipulationGoal.mk (block_size o) (arm_link o)
  | SendGoal (PickPlaceGoal_ g) =>
      g = PickPlaceGoal.mk (arm_link o) (z_up o) (gripper_open o)
            (gripper_closed o) pick_place_topic
  | ServiceCall r => r = SendHomeService.mkRequest true
  | _ => True
  end.
Proof.
  intros Hrun He.
  destruct (run_carries ps cs n Hrun) as (_ & _ & Ht).
  rewrite Forall_forall in Ht. specialize (Ht e He).
  destruct e as [| | | |[g|g|g]| |]; try exact I; exact Ht.
Qed.

(** C9. The topic of the stored PickPlace goal, and of every PickPlace goal
    sent in a run, is the constant "/pick_place", whatever the parameter
    server holds. *)
Theorem pick_place_topic_fixed ps cs n :
  run cs (boot ps) = Some n ->
  pick_place_topic = "/pick_place" /\
  PickPlaceGoal.topic (pick_place_goal_ (this n)) = "/pick_place" /\
  (forall g, In (SendGoal (PickPlaceGoal_ g)) (trace n) ->
             PickPlaceGoal.topic g = "/pick_place").
Proof.
  intros Hrun.
  destruct (run_carries ps cs n Hrun) as (_ & Hp & Ht).
  split; [reflexivity|]. split.
  - unfold payloads in Hp. injection Hp as _ _ -> _. reflexivity.
  - intros g Hg. rewrite Forall_forall in Ht. specialize (Ht _ Hg).
    change (g = pick_place_goal_ (initialize ps)) in Ht.
    rewrite Ht. reflexivity.
Qed.

(** C10. [resetArm] and the three callbacks leave the seven parameters, the
    three stored goals and the stored request as they found them, so after
    any run they are still the ones the constructor built. *)
Theorem handlers_keep_configuration_and_goals n state r1 r2 r3 :
  let kept m :=
    configuration (this m) = configuration (this n) /\
    payloads (this m) = payloads (this n) in
  kept (execState resetArm n) /\
  kept (execState (addBlocks state r1) n) /\
  kept (execState (pickAndPlace state r2) n) /\
  kept (execState (finish state r3) n) /\
  (forall ps cs,
     match run cs (boot ps) with
     | Some m => configuration (this m) = configuration (initialize ps) /\
                 payloads (this m) = payloads (initialize ps)
     | None => True
     end).
Proof.
  cbv zeta. repeat split;
    try apply resetArm_frame;
    try apply (callback_frame (BlockDetectionDone state r1));
    try apply (callback_frame (InteractiveBlockManipulationDone state r2));
    try apply (callback_frame (PickPlaceDone state r3)).
  intros ps cs. destruct (run cs (boot ps)) as [m|] eqn:Hrun; [|exact I].
  destruct (run_carries ps cs m Hrun) as (Hc & Hp & _). split; assumption.
Qed.

(** ** Shutdown requests *)

Lemma in_addBlocks_report state :
  is_SUCCEEDED state = false ->
  In Shutdown (addBlocks_report state) /\ In Shutdown (pickAndPlace_report state).
Proof.
  intros H. unfold addBlocks_report, pickAndPlace_report. rewrite H.
  split; right; left; reflexivity.
Qed.

(** C2, as the code has it.  A Detect or Select completion in any state but
    SUCCEEDED makes the callback request shutdown.  A reset call that fails
    is reported and the node sends nothing further, but it does not request
    shutdown: the only action of [resetArm] is then the call itself. *)
Theorem shutdown_on_stage_failure_only n state r1 r2 :
  is_SUCCEEDED state = false ->
  home_service (home_calls n) = None ->
  (let a := execState (addBlocks state r1) n in
   shutdown_requested a = true /\
   exists t, trace a = trace n ++ t /\ In Shutdown t) /\
  (let b := execState (pickAndPlace state r2) n in
   shutdown_requested b = true /\
   exists t, trace b = trace n ++ t /\ In Shutdown t) /\
  (let c := execState resetArm n in
   shutdown_requested c = shutdown_requested n /\
   flags c = flags n /\
   exists t, trace c = trace n ++ t /\
             actions t = [ServiceCall (SendHomeService.request (home_srv_ (this n)))]).
Proof.
  intros Hs Hfail. cbv zeta.
  destruct (in_addBlocks_report state Hs) as [I1 I2].
  rewrite addBlocks_effect, pickAndPlace_effect, (resetArm_fails n Hfail).
  cbn [shutdown_requested trace this]. rewrite Hs.
  repeat split.
  - eexists. split; [reflexivity|]. apply in_or_app. left. exact I1.
  - eexists. split; [reflexivity|]. apply in_or_app. left. exact I2.
  - eexists. split; reflexivity.
Qed.

(** ** The whole effect of one delivered callback *)

Lemma deliver_effect c n n' :
  deliver c n = Some n' ->
  awaiting (completion_endpoint c) n = true /\
  trace n' =
    trace n ++
    DoneCallback (completion_endpoint c) (completion_state c) ::
    callback_events c n /\
  flags n' = callback_flags c n /\
  shutdown_requested n' =
    (shutdown_requested n ||
     causes_shutdown (once (this n))
       (DoneCallback (completion_endpoint c) (completion_state c)))%bool /\
  once (this n') = once (this n).
Proof.
  intros H. pose proof H as H0. apply deliver_inv in H0.
  destruct H0 as [Hw _]. split; [exact Hw|].
  unfold awaiting in Hw.
  callback_paths H c n;
    cbn [completion_endpoint completion_state callback_events client_of
         acknowledged this trace] in *;
    unfold callback_flags, flags; cbn in Hw |- *;
    rewrite ?Hw;
    try (cbn in Honce; rewrite Honce);
    try (cbn in Hreply; rewrite Hreply);
    rewrite <- ?app_assoc; cbn;
    repeat split;
    try (destruct (is_SUCCEEDED state); rewrite ?orb_false_r, ?orb_true_r;
         reflexivity).
Qed.

Lemma boot_effect ps :
  trace (boot ps) =
    startup_events (initialize ps) ++
    resetArm_events (initialize ps) (home_service 0) /\
  flags (boot ps) =
    match home_service 0 with
    | Some _ => (true, false, false)
    | None => (false, false, false)
    end /\
  shutdown_requested (boot ps) = false /\
  once (this (boot ps)) = once (initialize ps).
Proof.
  rewrite boot_unfold.
  set (n0 := mkNode (initialize ps) (startup_events (initialize ps)) false 0).
  destruct (home_service 0) as [r|] eqn:H.
  - rewrite (resetArm_succeeds n0 r H). repeat split.
  - rewrite (resetArm_fails n0 H). repeat split.
Qed.

(** ** Counting over a run *)

Lemma count_app (f : Event -> bool) t1 t2 :
  length (filter f (t1 ++ t2)) = length (filter f t1) + length (filter f t2).
Proof. rewrite filter_app, length_app. reflexivity. Qed.

(** Every path through the three callbacks, with the events of each path
    written out. *)
Ltac events_cases c n :=
  let s := fresh "state" in
  let r := fresh "result" in
  destruct c as [s r | s r | s r];
  cbn [callback_events completion_endpoint completion_state] in *;
  unfold addBlocks_report, pickAndPlace_report, finish_report, restart_banner,
    resetArm_events in *;
  destruct (is_SUCCEEDED s) eqn:?;
  destruct (once (this n)) eqn:?;
  destruct (home_service (home_calls n)) eqn:?.

Ltac tally :=
  unfold goals_sent, calls_made, completions, failed_completions, failed_calls,
    errors, shutdowns, waits in *;
  rewrite ?count_app, ?filter_app, ?existsb_app; cbn;
  repeat match goal with
         | H : is_SUCCEEDED ?s = _ |- _ => rewrite ?H; clear H
         end;
  cbn.

Lemma callback_events_no_wait c n : waits (callback_events c n) = [].
Proof. events_cases c n; reflexivity. Qed.

Lemma run_startup ps cs n :
  run cs (boot ps) = Some n ->
  exists t, trace n = startup_events (initialize ps) ++ t /\ waits t = [].
Proof.
  apply (run_invariant
           (fun m => exists t, trace m = startup_events (initialize ps) ++ t /\
                               waits t = [])).
  - intros c m m' (t & Ht & Hwt) Hd.
    destruct (deliver_effect c m m' Hd) as (_ & Htr & _).
    exists (t ++ DoneCallback (completion_endpoint c) (completion_state c)
                 :: callback_events c m).
    split; [rewrite Htr, Ht, <- app_assoc; reflexivity|].
    unfold waits in *. rewrite filter_app, Hwt. cbn.
    apply callback_events_no_wait.
  - destruct (boot_effect ps) as (Ht & _).
    exists (resetArm_events (initialize ps) (home_service 0)).
    split; [exact Ht|]. destruct (home_service 0); reflexivity.
Qed.

Lemma run_shutdowns ps cs n :
  run cs (boot ps) = Some n ->
  once (this n) = once (initialize ps) /\
  shutdowns (trace n) =
    length (filter (causes_shutdown (once (initialize ps))) (trace n)) /\
  shutdown_requested n =
    existsb (causes_shutdown (once (initialize ps))) (trace n).
Proof.
  apply (run_invariant
           (fun m =>
              once (this m) = once (initialize ps) /\
              shutdowns (trace m) =
                length (filter (causes_shutdown (once (initialize ps))) (trace m)) /\
              shutdown_requested m =
                existsb (causes_shutdown (once (initialize ps))) (trace m))).
  - intros c m m' (Ho & Hc & Hs) Hd.
    destruct (deliver_effect c m m' Hd) as (_ & Htr & _ & Hsr & Ho').
    rewrite Ho', Hsr, Htr, Hs. rewrite Ho in *. clear Hsr Htr Hs Ho'.
    split; [reflexivity|].
    unfold shutdowns in *. rewrite !count_app, existsb_app, Hc.
    rewrite <- Ho.
    events_cases c m; cbn;
      repeat match goal with
             | H : is_SUCCEEDED _ = _ |- _ => rewrite ?H; clear H
             end;
      cbn; rewrite ?Nat.add_0_r, ?orb_false_r; split; reflexivity.
  - destruct (boot_effect ps) as (Ht & _ & Hs & Ho).
    rewrite Ht, Hs, Ho. split; [reflexivity|].
    unfold shutdowns. rewrite !count_app, existsb_app.
    destruct (home_service 0); split; reflexivity.
Qed.

Lemma run_calls ps cs n :
  run cs (boot ps) = Some n ->
  once (this n) = once (initialize ps) /\
  calls_made (trace n) =
    1 + (if once (initialize ps) then 0
         else completions pick_place (trace n)) /\
  goals_sent block_detection (trace n) + failed_calls (trace n) =
    calls_made (trace n).
Proof.
  apply (run_invariant
           (fun m =>
              once (this m) = once (initialize ps) /\
              calls_made (trace m) =
                1 + (if once (initialize ps) then 0
                     else completions pick_place (trace m)) /\
              goals_sent block_detection (trace m) + failed_calls (trace m) =
                calls_made (trace m))).
  - intros c m m' (Ho & H1 & H2) Hd.
    destruct (deliver_effect c m m' Hd) as (_ & Htr & _ & _ & Ho').
    rewrite Ho', Htr. clear Htr Hd Ho'.
    split; [exact Ho|]. rewrite <- Ho in *.
    events_cases c m; tally; lia.
  - destruct (boot_effect ps) as (Ht & _ & _ & Ho). rewrite Ht, Ho.
    split; [reflexivity|].
    destruct (once (initialize ps)), (home_service 0); split; reflexivity.
Qed.

Lemma deliver_in_step c n n' :
  in_step n -> deliver c n = Some n' -> in_step n'.
Proof.
  intros Hinv Hd.
  destruct (deliver_effect c n n' Hd) as (Hw & Htr & Hf & _).
  unfold in_step in *. rewrite Hf, Htr. clear Hf Htr Hd.
  unfold callback_flags. unfold awaiting in Hw.
  destruct (flags n) as [[d s] p] eqn:Hfl.
  unfold flags in Hfl. injection Hfl as Hd Hs Hp.
  destruct d, s, p; try contradiction;
    events_cases c n; cbn [client_of] in Hw;
    try (rewrite Hd in Hw; discriminate Hw);
    try (rewrite Hs in Hw; discriminate Hw);
    try (rewrite Hp in Hw; discriminate Hw);
    tally; lia.
Qed.

Lemma boot_in_step ps : in_step (boot ps).
Proof.
  destruct (boot_effect ps) as (Ht & Hf & _).
  unfold in_step. rewrite Hf, Ht.
  destruct (home_service 0); tally; lia.
Qed.

Lemma run_in_step ps cs n : run cs (boot ps) = Some n -> in_step n.
Proof. apply (run_invariant in_step deliver_in_step). apply boot_in_step. Qed.

Lemma in_step_chain n :
  in_step n ->
  goals_sent pick_place (trace n) <= goals_sent interactive_manipulation (trace n) /\
  goals_sent interactive_manipulation (trace n) <= goals_sent block_detection (trace n) /\
  goals_sent block_detection (trace n) <= calls_made (trace n) /\
  calls_made (trace n) <= S (goals_sent pick_place (trace n)).
Proof.
  unfold in_step. destruct (flags n) as [[[] []] []]; try contradiction; lia.
Qed.

(** ** The order of the callbacks *)

Lemma stage_flags_next c n k :
  flags n = (false, false, false) \/ flags n = slot_flags (Some (stage k)) ->
  awaiting (completion_endpoint c) n = true ->
  completion_endpoint c = stage k /\
  (callback_flags c n = (false, false, false) \/
   callback_flags c n = slot_flags (Some (stage (S k)))).
Proof.
  intros [Hidle|Hf] Hw; [exfalso; exact (awaiting_flags _ _ Hw Hidle)|].
  pose proof (awaiting_slot _ _ _ Hf Hw) as Hs. injection Hs as Hs.
  split; [symmetry; exact Hs|].
  unfold callback_flags. rewrite Hf.
  change (stage (S k)) with (next_stage (stage k)). rewrite Hs.
  destruct c; cbn;
    try destruct (once (this n));
    try destruct (home_service (home_calls n)); auto.
Qed.

Lemma run_stage_order cs :
  forall n k n',
    flags n = (false, false, false) \/ flags n = slot_flags (Some (stage k)) ->
    run cs n = Some n' ->
    forall i c, nth_error cs i = Some c -> completion_endpoint c = stage (k + i).
Proof.
  induction cs as [|c0 cs IH]; intros n k n' Hf Hrun i c Hi.
  - destruct i; discriminate Hi.
  - cbn [run] in Hrun.
    destruct (deliver c0 n) as [n1|] eqn:Hd; [|discriminate Hrun].
    destruct (deliver_effect c0 n n1 Hd) as (Hw & _ & Hf1 & _).
    destruct (stage_flags_next c0 n k Hf Hw) as [Hep Hnext].
    rewrite <- Hf1 in Hnext.
    destruct i as [|i]; cbn [nth_error] in Hi.
    + injection Hi as <-. rewrite Nat.add_0_r. exact Hep.
    + rewrite Nat.add_succ_r.
      exact (IH n1 (S k) n' Hnext Hrun i c Hi).
Qed.

(** ** Further properties of every run *)

(** X1. The trace of every run starts with what the constructor wrote before
    its first reset call: there the four endpoints are waited for, block
    detection, interactive manipulation, pick and place, then the home
    service, and no request is issued; after that the node never waits for
    a server again. *)
Theorem waits_come_first ps cs n :
  run cs (boot ps) = Some n ->
  exists t,
    trace n = startup_events (initialize ps) ++ t /\
    waits (startup_events (initialize ps)) =
      [WaitForServer block_detection; WaitForServer interactive_manipulation;
       WaitForServer pick_place; WaitForServer send_home] /\
    requests (startup_events (initialize ps)) = [] /\
    waits t = [].
Proof.
  intros Hrun. destruct (run_startup ps cs n Hrun) as (t & Ht & Hw).
  exists t. repeat split; assumption.
Qed.

(** X2. The node calls [ros::shutdown] once for every Detect or Select goal
    that ends in a state other than SUCCEEDED and, when the run-once flag is
    set, once for every PickPlace completion, and for nothing else; so
    shutdown has been requested exactly when the trace holds such a
    completion. *)
Theorem shutdown_has_a_cause ps cs n :
  run cs (boot ps) = Some n ->
  shutdowns (trace n) =
    length (filter (causes_shutdown (once (initialize ps))) (trace n)) /\
  shutdown_requested n =
    existsb (causes_shutdown (once (initialize ps))) (trace n).
Proof.
  intros Hrun. destruct (run_shutdowns ps cs n Hrun) as (_ & H1 & H2).
  split; assumption.
Qed.

(** X3. The ROS_ERROR lines of a run are as many as its failures: one for
    each goal of any stage that ended in a state other than SUCCEEDED and
    one for each reset call that returned false. *)
Theorem one_error_line_per_failure ps cs n :
  run cs (boot ps) = Some n ->
  errors (trace n) = failed_completions (trace n) + failed_calls (trace n).
Proof.
  apply (run_invariant
           (fun m => errors (trace m) =
                     failed_completions (trace m) + failed_calls (trace m))).
  - intros c m m' Hinv Hd.
    destruct (deliver_effect c m m' Hd) as (_ & Htr & _).
    rewrite Htr. clear Htr Hd.
    events_cases c m; tally; lia.
  - destruct (boot_effect ps) as (Ht & _). rewrite Ht.
    destruct (home_service 0); reflexivity.
Qed.

(** X4. Whatever state a Detect goal ends in, its callback sends one Select
    goal, and whatever state a Select goal ends in, its callback sends one
    PickPlace goal: the goals sent to a stage are as many as the completions
    of the stage before it. *)
Theorem every_completion_sends_the_next_goal ps cs n :
  run cs (boot ps) = Some n ->
  goals_sent interactive_manipulation (trace n) =
    completions block_detection (trace n) /\
  goals_sent pick_place (trace n) =
    completions interactive_manipulation (trace n).
Proof.
  apply (run_invariant
           (fun m =>
              goals_sent interactive_manipulation (trace m) =
                completions block_detection (trace m) /\
              goals_sent pick_place (trace m) =
                completions interactive_manipulation (trace m))).
  - intros c m m' [H1 H2] Hd.
    destruct (deliver_effect c m m' Hd) as (_ & Htr & _).
    rewrite Htr. clear Htr Hd.
    events_cases c m; tally; lia.
  - destruct (boot_effect ps) as (Ht & _). rewrite Ht.
    destruct (home_service 0); split; reflexivity.
Qed.

(** X5. The reset service is called once by the constructor and once more
    for each PickPlace completion when the run-once flag is clear, never
    when it is set; and each call that did not fail is followed by one
    Detect goal. *)
Theorem reset_calls_counted ps cs n :
  run cs (boot ps) = Some n ->
  calls_made (trace n) =
    1 + (if once (initialize ps) then 0 else completions pick_place (trace n)) /\
  goals_sent block_detection (trace n) + failed_calls (trace n) =
    calls_made (trace n).
Proof.
  intros Hrun. destruct (run_calls ps cs n Hrun) as (_ & H1 & H2).
  split; assumption.
Qed.


(** X7. The callbacks of a run come in the order of the stages: the i-th
    completion that is delivered belongs to block detection, interactive
    manipulation or pick and place according to i modulo three. *)
Theorem callbacks_in_stage_order ps cs n i c :
  run cs (boot ps) = Some n ->
  nth_error cs i = Some c ->
  completion_endpoint c = stage i.
Proof.
  intros Hrun Hi.
  apply (run_stage_order cs (boot ps) 0 n); [|exact Hrun|exact Hi].
  destruct (boot_effect ps) as (_ & Hf & _). rewrite Hf.
  destruct (home_service 0); [right|left]; reflexivity.
Qed.

(** X9. With the run-once flag set no stage is entered twice: every run has
    exactly one reset call and at most one goal of each kind. *)
Theorem run_once_never_repeats ps cs n :
  once (initialize ps) = true ->
  run cs (boot ps) = Some n ->
  calls_made (trace n) = 1 /\
  goals_sent block_detection (trace n) <= 1 /\
  goals_sent interactive_manipulation (trace n) <= 1 /\
  goals_sent pick_place (trace n) <= 1.
Proof.
  intros Honce Hrun.
  destruct (run_calls ps cs n Hrun) as (_ & H1 & _). rewrite Honce in H1.
  destruct (in_step_chain n (run_in_step ps cs n Hrun)) as (A & B & C & _).
  repeat split; lia.
Qed.

(** ** Agreement between the goals, and the reasons to stop *)

(** X10. The goals of a run agree with each other: every Detect goal and
    every Select goal name the same frame and the same block size, and every
    PickPlace goal names that frame too, whatever the parameter server
    holds. *)
Theorem goals_agree_on_frame_and_size ps cs n :
  run cs (boot ps) = Some n ->
  (forall g1 g2,
     In (SendGoal (DetectGoal g1)) (trace n) ->
     In (SendGoal (SelectGoal g2)) (trace n) ->
     BlockDetectionGoal.frame g1 = InteractiveBlockManipulationGoal.frame g2 /\
     BlockDetectionGoal.block_size g1 =
       InteractiveBlockManipulationGoal.block_size g2) /\
  (forall g1 g3,
     In (SendGoal (DetectGoal g1)) (trace n) ->
     In (SendGoal (PickPlaceGoal_ g3)) (trace n) ->
     BlockDetectionGoal.frame g1 = PickPlaceGoal.frame g3).
Proof.
  intros Hrun.
  destruct (run_carries ps cs n Hrun) as (_ & _ & Ht).
  rewrite Forall_forall in Ht.
  split.
  - intros g1 g2 I1 I2.
    pose proof (Ht _ I1) as E1. pose proof (Ht _ I2) as E2.
    change (g1 = block_detection_goal_ (initialize ps)) in E1.
    change (g2 = interactive_manipulation_goal_ (initialize ps)) in E2.
    rewrite E1, E2. split; reflexivity.
  - intros g1 g3 I1 I3.
    pose proof (Ht _ I1) as E1. pose proof (Ht _ I3) as E3.
    change (g1 = block_detection_goal_ (initialize ps)) in E1.
    change (g3 = pick_place_goal_ (initialize ps)) in E3.
    rewrite E1, E3. reflexivity.
Qed.

Lemma filter_none (f : Event -> bool) t :
  (forall e, In e t -> f e = false) ->
  filter f t = [] /\ existsb f t = false.
Proof.
  induction t as [|e t IH]; intros H; cbn; [split; reflexivity|].
  rewrite (H e (or_introl eq_refl)). cbn. apply IH.
  intros e' He'. apply H. right. exact He'.
Qed.

(** X11. When the parameter server does not set [once], a run in which every
    Detect and Select goal succeeded never requests shutdown, however the
    PickPlace goals ended and whatever the reset service answered. *)
Theorem default_loop_never_shuts_down ps cs n :
  get_bool ps "once" = None ->
  run cs (boot ps) = Some n ->
  (forall ep state, In (DoneCallback ep state) (trace n) ->
                    ep <> pick_place -> is_SUCCEEDED state = true) ->
  shutdown_requested n = false /\ shutdowns (trace n) = 0.
Proof.
  intros Hps Hrun Hok.
  destruct (run_shutdowns ps cs n Hrun) as (_ & H1 & H2).
  assert (once (initialize ps) = false) as Honce
    by (unfold initialize; cbn [once]; unfold param; rewrite Hps; reflexivity).
  rewrite Honce in H1, H2.
  destruct (filter_none (causes_shutdown false) (trace n)) as [F1 F2].
  { intros e He. destruct e as [| | | | |ep state|]; try reflexivity.
    destruct ep; try reflexivity; cbn;
      rewrite (Hok _ state He); try reflexivity; discriminate. }
  rewrite H1, H2, F1, F2. split; reflexivity.
Qed.

Lemma deliver_halt_reason c n n' :
  in_step n ->
  halt_reason (once (this n)) n ->
  deliver c n = Some n' ->
  halt_reason (once (this n)) n'.
Proof.
  intros Hstep Hinv Hd.
  destruct (deliver_effect c n n' Hd) as (Hw & Htr & Hf & _).
  unfold halt_reason, in_step in *. rewrite Hf, Htr. clear Hf Htr Hd.
  unfold callback_flags. unfold awaiting in Hw.
  destruct (flags n) as [[d s] p] eqn:Hfl.
  unfold flags in Hfl. injection Hfl as Hd Hs Hp.
  destruct d, s, p; try contradiction;
    events_cases c n; cbn [client_of] in Hw;
    try (rewrite Hd in Hw; discriminate Hw);
    try (rewrite Hs in Hw; discriminate Hw);
    try (rewrite Hp in Hw; discriminate Hw);
    destruct Hinv as [Hfc Hpc]; tally;
    first [ right; split; [reflexivity|]; specialize (Hpc eq_refl); lia
          | left; lia
          | split; [lia|]; intros E;
            first [discriminate E | specialize (Hpc E); lia] ].
Qed.

(** X12. After any run the node has nothing outstanding exactly when a reset
    call has failed or, with the run-once flag set, a PickPlace completion
    has been handled.  A Detect or Select goal that fails is no such reason:
    the node then still waits for the goal it sent next. *)
Theorem idle_only_for_two_reasons ps cs n :
  run cs (boot ps) = Some n ->
  flags n = (false, false, false) <->
  (failed_calls (trace n) = 1 \/
   (once (initialize ps) = true /\ completions pick_place (trace n) = 1)).
Proof.
  intros Hrun.
  assert (once (this n) = once (initialize ps) /\
          in_step n /\ halt_reason (once (initialize ps)) n) as (_ & _ & H).
  { revert Hrun.
    apply (run_invariant
             (fun m => once (this m) = once (initialize ps) /\
                       in_step m /\ halt_reason (once (initialize ps)) m)).
    - intros c m m' (Ho & Hs & Hh) Hd.
      destruct (deliver_effect c m m' Hd) as (_ & _ & _ & _ & Ho').
      split; [congruence|]. split; [exact (deliver_in_step c m m' Hs Hd)|].
      rewrite <- Ho in *.
      exact (deliver_halt_reason c m m' Hs Hh Hd).
    - destruct (boot_effect ps) as (Ht & Hf & _ & Ho).
      split; [exact Ho|]. split; [apply boot_in_step|].
      unfold halt_reason. rewrite Hf, Ht.
      destruct (home_service 0); tally; [split; [lia|reflexivity] | left; lia]. }
  unfold halt_reason in H.
  destruct (flags n) as [[[] []] []]; split; intros G;
    try discriminate G; try reflexivity; try exact H;
    destruct H as [H0 Hp]; destruct G as [G|[G1 G2]];
    try lia; rewrite (Hp G1) in G2; discriminate G2.
Qed.

(** ** The cycle of requests *)

Lemma count_requests (f : Event -> bool) t :
  (forall e, f e = true -> is_request e = true) ->
  length (filter f (requests t)) = length (filter f t).
Proof.
  intros H. unfold requests. induction t as [|e t IH]; cbn; [reflexivity|].
  destruct (f e) eqn:Hf.
  - rewrite (H e Hf). cbn. rewrite Hf. cbn. rewrite IH. reflexivity.
  - destruct (is_request e); cbn; rewrite ?Hf; exact IH.
Qed.

Lemma cycle_counts o N :
  calls_made (concat (repeat (cycle o) N)) = N /\
  goals_sent block_detection (concat (repeat (cycle o) N)) = N /\
  goals_sent interactive_manipulation (concat (repeat (cycle o) N)) = N /\
  goals_sent pick_place (concat (repeat (cycle o) N)) = N.
Proof.
  induction N as [|N (I1 & I2 & I3 & I4)]; [repeat split; reflexivity|].
  rewrite concat_repeat_snoc.
  unfold calls_made, goals_sent in *. rewrite !count_app, I1, I2, I3, I4.
  cbn. repeat split; lia.
Qed.

Lemma deliver_on_cycle o c n n' :
  payloads (this n) = payloads o ->
  on_cycle o n -> deliver c n = Some n' -> on_cycle o n'.
Proof.
  intros Hp Hinv Hd.
  destruct (deliver_effect c n n' Hd) as (Hw & Htr & Hf & _).
  unfold on_cycle in *. rewrite Hf, Htr. clear Hf Htr Hd.
  unfold callback_flags. unfold awaiting in Hw.
  unfold payloads in Hp. injection Hp as P1 P2 P3 P4.
  destruct Hinv as [k Hk].
  destruct (flags n) as [[d s] p] eqn:Hfl.
  unfold flags in Hfl. injection Hfl as Hd Hs Hp.
  destruct d, s, p; try contradiction;
    events_cases c n; cbn [client_of] in Hw;
    try (rewrite Hd in Hw; discriminate Hw);
    try (rewrite Hs in Hw; discriminate Hw);
    try (rewrite Hp in Hw; discriminate Hw);
    rewrite ?P1, ?P2, ?P3, ?P4;
    rewrite requests_app;
    first
      [ (* a goal is sent to the next client *)
        exists k; cbv beta iota; rewrite ?concat_repeat_snoc, Hk;
        generalize (concat (repeat (cycle o) k)); intros pre;
        unfold cycle; cbn; rewrite <- ?app_assoc; reflexivity
      | (* finish halts, or restarts with a reset call *)
        exists (S k); cbv beta iota; rewrite Hk;
        generalize (concat (repeat (cycle o) (S k))); intros pre;
        unfold cycle; cbn; rewrite ?app_nil_r;
        first [reflexivity | left; reflexivity | right; reflexivity] ].
Qed.

Lemma run_on_cycle ps cs n :
  run cs (boot ps) = Some n -> on_cycle (initialize ps) n.
Proof.
  intros Hrun.
  assert (payloads (this n) = payloads (initialize ps) /\
          on_cycle (initialize ps) n) as [_ H]; [|exact H].
  revert Hrun.
  apply (run_invariant
           (fun m => payloads (this m) = payloads (initialize ps) /\
                     on_cycle (initialize ps) m)).
  - intros c m m' [Hp Hc] Hd.
    destruct (deliver_frame c m m' Hd) as [_ Hp'].
    split; [congruence|].
    exact (deliver_on_cycle (initialize ps) c m m' Hp Hc Hd).
  - destruct (boot_frame ps) as [_ Hp]. split; [exact Hp|].
    destruct (boot_effect ps) as (Ht & Hf & _).
    unfold on_cycle. rewrite Hf, Ht. exists 0.
    destruct (home_service 0); [|right]; reflexivity.
Qed.

(** C5, as the code has it.  In every run the requests are issued in the
    order Reset, Detect, Select, PickPlace, one per stage and cycle: they
    are some number of full cycles followed by the first requests of the
    next.  With run-once off and the reset service answering, a script of
    [N] cycles in which every stage reports SUCCEEDED is accepted, and the
    requests issued are [N] full cycles followed by the Reset call and the
    Detect goal of cycle [N + 1], which [finish] issues while it handles
    the [N]-th PickPlace completion: [N + 1] reset calls and Detect goals,
    [N] Select and PickPlace goals.  When cycle [N + 1] has got as far as
    its PickPlace goal the requests are exactly [N + 1] full cycles. *)
Theorem cycles_in_stage_order ps :
  (forall cs n,
     run cs (boot ps) = Some n ->
     exists k j,
       j < 4 /\
       requests (trace n) =
         concat (repeat (cycle (initialize ps)) k) ++
         firstn j (cycle (initialize ps))) /\
  (forall N cs,
     once (initialize ps) = false ->
     (forall i, i <= N -> home_service i <> None) ->
     successful_cycles N cs ->
     (exists n,
        run cs (boot ps) = Some n /\
        requests (trace n) =
          concat (repeat (cycle (initialize ps)) N) ++
          [ServiceCall (SendHomeService.mkRequest true);
           SendGoal (DetectGoal (block_detection_goal_ (initialize ps)))] /\
        calls_made (trace n) = S N /\
        goals_sent block_detection (trace n) = S N /\
        goals_sent interactive_manipulation (trace n) = N /\
        goals_sent pick_place (trace n) = N) /\
     (forall r1 r2,
      exists n,
        run (cs ++ [BlockDetectionDone SUCCEEDED r1;
                    InteractiveBlockManipulationDone SUCCEEDED r2]) (boot ps)
          = Some n /\
        requests (trace n) = concat (repeat (cycle (initialize ps)) (S N)) /\
        flags n = (false, false, true))).
Proof.
  split.
  - intros cs n Hrun. destruct (run_on_cycle ps cs n Hrun) as [k Hk].
    destruct (flags n) as [[[] []] []]; try contradiction.
    + exists k, 2. split; [lia | exact Hk].
    + exists k, 3. split; [lia | exact Hk].
    + exists (S k), 0. split; [lia|]. rewrite Hk, app_nil_r. reflexivity.
    + destruct Hk as [Hk|Hk].
      * exists k, 0. split; [lia|]. rewrite Hk, app_nil_r. reflexivity.
      * exists k, 1. split; [lia | exact Hk].
  - intros N cs Honce Hhome Hcs.
    destruct (cycles_state ps N cs Honce Hcs Hhome)
      as (n & Hrun & Hreq & Hf & Hk & Hc & Hp).
    split.
    + exists n. split; [exact Hrun|]. split; [exact Hreq|].
      destruct (cycle_counts (initialize ps) N) as (C1 & C2 & C3 & C4).
      unfold calls_made, goals_sent in *.
      rewrite <- (count_requests is_call (trace n)),
              <- (count_requests (sends_to block_detection) (trace n)),
              <- (count_requests (sends_to interactive_manipulation) (trace n)),
              <- (count_requests (sends_to pick_place) (trace n));
        try (intros [] He; try discriminate He; reflexivity).
      rewrite Hreq, !count_app, C1, C2, C3, C4. cbn. repeat split; lia.
    + intros r1 r2.
      destruct (cycle_to_placing n r1 r2 Hf) as (n' & Hrun' & Hreq' & Hf' & _).
      exists n'. rewrite run_app, Hrun. repeat split; try assumption.
      rewrite Hreq', Hreq, concat_repeat_snoc.
      unfold payloads in Hp. injection Hp as _ -> -> _.
      unfold cycle. rewrite <- !app_assoc. reflexivity.
Qed.

End Environment.

Arguments BlockDetectionDone {_ _ _} state result.
Arguments InteractiveBlockManipulationDone {_ _ _} state result.
Arguments PickPlaceDone {_ _ _} state result.
Arguments run home_service {_ _ _} cs n.
Arguments deliver home_service {_ _ _} c n.
Arguments successful_cycles {_ _ _} N cs.

(** ** Two runs under one configuration *)

(** C7. Two runs whose constructors loaded the same seven parameters send
    the same payload to each endpoint, whatever the reset service answered,
    whatever completions and results were delivered, and however many
    cycles either run went through. *)
Theorem goals_determined_by_configuration
    (home1 home2 : nat -> option SendHomeService.Response)
    (R1 R2 R3 : Type) (ps1 ps2 : ParamServer)
    (cs1 cs2 : list (Completion R1 R2 R3)) (n1 n2 : Node) (g1 g2 : Goal) :
  configuration (initialize ps1) = configuration (initialize ps2) ->
  run home1 cs1 (boot home1 ps1) = Some n1 ->
  run home2 cs2 (boot home2 ps2) = Some n2 ->
  In (SendGoal g1) (trace n1) ->
  In (SendGoal g2) (trace n2) ->
  goal_endpoint g1 = goal_endpoint g2 ->
  g1 = g2.
Proof.
  intros Hc H1 H2 I1 I2 Hep.
  destruct (run_carries home1 R1 R2 R3 ps1 cs1 n1 H1) as (_ & _ & T1).
  destruct (run_carries home2 R1 R2 R3 ps2 cs2 n2 H2) as (_ & _ & T2).
  rewrite Forall_forall in T1, T2.
  specialize (T1 _ I1). specialize (T2 _ I2).
  assert (payloads (initialize ps1) = payloads (initialize ps2)) as Hp.
  { unfold configuration in Hc. injection Hc as E1 E2 E3 E4 E5 E6 E7.
    unfold payloads, initialize.
    cbn [block_detection_goal_ interactive_manipulation_goal_ pick_place_goal_
         home_srv_ SendHomeService.request].
    cbn [initialize arm_link gripper_open gripper_closed z_up z_down block_size]
      in E1, E2, E3, E4, E5, E6.
    rewrite E1, E2, E3, E4, E5, E6. reflexivity. }
  rewrite Hp in T1.
  destruct g1 as [a|a|a], g2 as [b|b|b]; try discriminate Hep;
    cbn [carries] in T1, T2; congruence.
Qed.


(** ** The failure paths, run on concrete inputs *)

(** C1. With the default parameters and the reset service answering, a
    Detect goal that ends ABORTED makes [addBlocks] request shutdown and
    then send the Select goal all the same; a Select goal that ends ABORTED
    makes [pickAndPlace] request shutdown and then send the PickPlace
    goal. *)
Theorem failed_stage_still_sends_next_goal :
  (exists n,
     run home_always [@BlockDetectionDone unit unit unit ABORTED tt]
       (boot home_always default_params) = Some n /\
     actions (trace n) =
       [ServiceCall (SendHomeService.mkRequest true);
        SendGoal (DetectGoal (BlockDetectionGoal.mk "/base_link" 0.01 0.03));
        Shutdown;
        SendGoal (SelectGoal (InteractiveBlockManipulationGoal.mk 0.03 "/base_link"))] /\
     shutdown_requested n = true /\
     awaiting interactive_manipulation n = true) /\
  (exists n,
     run home_always
       [@BlockDetectionDone unit unit unit SUCCEEDED tt;
        InteractiveBlockManipulationDone ABORTED tt]
       (boot home_always default_params) = Some n /\
     actions (trace n) =
       [ServiceCall (SendHomeService.mkRequest true);
        SendGoal (DetectGoal (BlockDetectionGoal.mk "/base_link" 0.01 0.03));
        SendGoal (SelectGoal (InteractiveBlockManipulationGoal.mk 0.03 "/base_link"));
        Shutdown;
        SendGoal (PickPlaceGoal_
                    (PickPlaceGoal.mk "/base_link" 0.12 0.042 0.024 "/pick_place"))] /\
     shutdown_requested n = true /\
     awaiting pick_place n = true).
Proof.
  split; eexists; (split; [vm_compute; reflexivity|]);
    repeat split; vm_compute; reflexivity.
Qed.

(** C2 fails for the reset: when the first reset call fails, the trace shows
    the failed call and no shutdown request, and the shutdown flag of the
    node is still clear. *)
Lemma failed_reset_requests_no_shutdown :
  In (ServiceReturn false) (trace (boot home_never default_params)) /\
  shutdown_requested (boot home_never default_params) = false /\
  ~ In Shutdown (trace (boot home_never default_params)).
Proof.
  split; [|split].
  - vm_compute. tauto.
  - reflexivity.
  - vm_compute. intros H.
    repeat (destruct H as [H|H]; [discriminate H|]). exact H.
Qed.

(** ** The theorems at concrete inputs *)

(** C3 at a loop that has reached PLACING with run-once off: a PickPlace
    goal that ends ABORTED restarts the demo. *)
Lemma finish_governed_by_once_witness :
  exists n,
    run home_always
      [@BlockDetectionDone unit unit unit SUCCEEDED tt;
       InteractiveBlockManipulationDone SUCCEEDED tt]
      (boot home_always default_params) = Some n /\
    awaiting pick_place n = true /\
    exists n' t,
      deliver home_always (@PickPlaceDone unit unit unit ABORTED tt) n = Some n' /\
      trace n' = trace n ++ DoneCallback pick_place ABORTED :: t /\
      actions t =
        [ServiceCall (SendHomeService.mkRequest true);
         SendGoal (DetectGoal (BlockDetectionGoal.mk "/base_link" 0.01 0.03))] /\
      shutdown_requested n' = false.
Proof.
  eexists. split; [vm_compute; reflexivity|].
  split; [vm_compute; reflexivity|].
  match goal with
  | |- context [deliver _ _ ?n] =>
      destruct (finish_governed_by_once home_always unit unit unit
                  default_params
                  [BlockDetectionDone SUCCEEDED tt;
                   InteractiveBlockManipulationDone SUCCEEDED tt]
                  n ABORTED tt)
        as (n' & t & Hd & Ht & Ha & Hs & _);
      [vm_compute; reflexivity | vm_compute; reflexivity |]
  end.
  exists n', t. split; [exact Hd|]. split; [exact Ht|].
  split; [exact Ha | exact Hs].
Defined.

(** C4 at a node whose first reset call fails. *)
Lemma reset_failure_halts_witness :
  run home_never (@nil (Completion unit unit unit))
    (boot home_never default_params) = Some (boot home_never default_params) /\
  0 < calls_made (trace (boot home_never default_params)) /\
  home_never 0 = None /\
  calls_made (trace (boot home_never default_params)) = 1 /\
  goals_sent block_detection (trace (boot home_never default_params)) = 0 /\
  flags (boot home_never default_params) = (false, false, false) /\
  (forall c : Completion unit unit unit,
     deliver home_never c (boot home_never default_params) = None).
Proof.
  split; [reflexivity|]. split; [vm_compute; lia|]. split; [reflexivity|].
  apply (reset_failure_halts home_never unit unit unit default_params []
           (boot home_never default_params) 0);
    [reflexivity | vm_compute; lia | reflexivity].
Defined.

(** C6 at the node the constructor leaves, split just before the reset
    call. *)
Lemma one_request_at_a_time_witness :
  let n := boot home_always default_params in
  let t1 := startup_events (initialize default_params) ++
            [Log INFO "1. Resetting arm to home position" []] in
  let t2 := [ServiceCall (SendHomeService.mkRequest true);
             ServiceReturn true;
             Log INFO "2. Detecting blocks using PCL" [];
             SendGoal (DetectGoal (block_detection_goal_ (initialize default_params)))] in
  run home_always (@nil (Completion unit unit unit)) n = Some n /\
  trace n = t1 ++ t2 /\
  length (unanswered t1) <= 1 /\
  (forall e t2', t2 = e :: t2' -> is_request e = true -> unanswered t1 = []) /\
  (exists slot, unanswered (trace n) = slot_list slot /\
                flags n = slot_flags slot).
Proof.
  intros n t1 t2.
  split; [reflexivity|]. split; [vm_compute; reflexivity|].
  apply (one_request_at_a_time home_always unit unit unit default_params []
           n t1 t2); [reflexivity | vm_compute; reflexivity].
Defined.

(** C7 at two runs of different length, one of them with a failing stage
    and a reset service that stops answering: both Detect goals are the
    same. *)
Lemma goals_determined_by_configuration_witness :
  exists n1 n2 g,
    configuration (initialize default_params) =
      configuration (initialize default_params) /\
    run home_always (@nil (Completion unit unit unit))
      (boot home_always default_params) = Some n1 /\
    run home_first_only
      [@BlockDetectionDone unit unit unit LOST tt]
      (boot home_first_only default_params) = Some n2 /\
    In (SendGoal (DetectGoal g)) (trace n1) /\
    In (SendGoal (DetectGoal (BlockDetectionGoal.mk "/base_link" 0.01 0.03)))
       (trace n2) /\
    DetectGoal g = DetectGoal (BlockDetectionGoal.mk "/base_link" 0.01 0.03).
Proof.
  destruct (run home_first_only [@BlockDetectionDone unit unit unit LOST tt]
              (boot home_first_only default_params)) as [n2|] eqn:H2;
    [|vm_compute in H2; discriminate H2].
  assert (In (SendGoal (DetectGoal (BlockDetectionGoal.mk "/base_link" 0.01 0.03)))
             (trace n2)) as I2
    by (vm_compute in H2; injection H2 as <-; vm_compute; tauto).
  assert (In (SendGoal (DetectGoal (BlockDetectionGoal.mk "/base_link" 0.01 0.03)))
             (trace (boot home_always default_params))) as I1
    by (vm_compute; tauto).
  exists (boot home_always default_params), n2,
    (BlockDetectionGoal.mk "/base_link" 0.01 0.03).
  split; [reflexivity|]. split; [reflexivity|]. split; [reflexivity|].
  split; [exact I1|]. split; [exact I2|].
  exact (goals_determined_by_configuration home_always home_first_only
           unit unit unit default_params default_params
           [] [BlockDetectionDone LOST tt]
           (boot home_always default_params) n2 _ _
           eq_refl eq_refl H2 I1 I2 eq_refl).
Defined.

(** C8 at the PickPlace goal of the first cycle under the default
    parameters. *)
Lemma request_payloads_witness :
  exists n g,
    run home_always
      [@BlockDetectionDone unit unit unit SUCCEEDED tt;
       InteractiveBlockManipulationDone SUCCEEDED tt]
      (boot home_always default_params) = Some n /\
    In (SendGoal (PickPlaceGoal_ g)) (trace n) /\
    g = PickPlaceGoal.mk "/base_link" 0.12 0.042 0.024 "/pick_place".
Proof.
  destruct (run home_always
              [@BlockDetectionDone unit unit unit SUCCEEDED tt;
               InteractiveBlockManipulationDone SUCCEEDED tt]
              (boot home_always default_params)) as [n|] eqn:H;
    [|vm_compute in H; discriminate H].
  assert (In (SendGoal (PickPlaceGoal_
                (PickPlaceGoal.mk "/base_link" 0.12 0.042 0.024 "/pick_place")))
             (trace n)) as I
    by (vm_compute in H; injection H as <-; vm_compute; tauto).
  exists n, (PickPlaceGoal.mk "/base_link" 0.12 0.042 0.024 "/pick_place").
  split; [reflexivity|]. split; [exact I|].
  exact (request_payloads home_always unit unit unit default_params _ n _ H I).
Defined.

(** C9 at a parameter server that tries to set a topic: the PickPlace goal
    of the first cycle still names "/pick_place". *)
Lemma pick_place_topic_fixed_witness :
  let ps := mkParams
              (fun name => if String.eqb name "topic" then Some "/elsewhere" else None)
              (fun _ => None) (fun _ => None) in
  exists n,
    run home_always
      [@BlockDetectionDone unit unit unit SUCCEEDED tt;
       InteractiveBlockManipulationDone SUCCEEDED tt]
      (boot home_always ps) = Some n /\
    pick_place_topic = "/pick_place" /\
    PickPlaceGoal.topic (pick_place_goal_ (this n)) = "/pick_place" /\
    (forall g, In (SendGoal (PickPlaceGoal_ g)) (trace n) ->
               PickPlaceGoal.topic g = "/pick_place").
Proof.
  intros ps.
  destruct (run home_always
              [@BlockDetectionDone unit unit unit SUCCEEDED tt;
               InteractiveBlockManipulationDone SUCCEEDED tt]
              (boot home_always ps)) as [n|] eqn:H;
    [|vm_compute in H; discriminate H].
  exists n. split; [reflexivity|].
  exact (pick_place_topic_fixed home_always unit unit unit ps _ n H).
Defined.

(** C2 as amended, at the first Detect completion of a node whose reset
    service has stopped answering. *)
Lemma shutdown_on_stage_failure_only_witness :
  let n := boot home_first_only default_params in
  is_SUCCEEDED ABORTED = false /\
  home_first_only (home_calls n) = None /\
  shutdown_requested (execState (addBlocks unit ABORTED tt) n) = true /\
  shutdown_requested (execState (pickAndPlace unit ABORTED tt) n) = true /\
  shutdown_requested (execState (resetArm home_first_only) n) =
    shutdown_requested n.
Proof.
  intros n.
  assert (is_SUCCEEDED ABORTED = false) as H1 by reflexivity.
  assert (home_first_only (home_calls n) = None) as H2 by reflexivity.
  split; [exact H1|]. split; [exact H2|].
  destruct (shutdown_on_stage_failure_only home_first_only unit unit
              n ABORTED tt tt H1 H2) as ((Ha & _) & (Hb & _) & (Hc & _)).
  split; [exact Ha|]. split; [exact Hb | exact Hc].
Defined.

(** ** The further properties at concrete runs *)

Arguments completion_endpoint {_ _ _} c.

(** X1 after a Detect goal that was aborted. *)
Lemma waits_come_first_witness :
  exists n t,
    run home_always [@BlockDetectionDone unit unit unit ABORTED tt]
      (boot home_always default_params) = Some n /\
    trace n = startup_events (initialize default_params) ++ t /\
    waits t = [].
Proof.
  destruct (run home_always [@BlockDetectionDone unit unit unit ABORTED tt]
              (boot home_always default_params)) as [n|] eqn:H;
    [|vm_compute in H; discriminate H].
  destruct (waits_come_first home_always unit unit unit default_params _ n H)
    as (t & Ht & _ & _ & Hw).
  exists n, t. split; [reflexivity|]. split; assumption.
Defined.

(** X2 after a Detect goal that was aborted: one shutdown request. *)
Lemma shutdown_has_a_cause_witness :
  exists n,
    run home_always [@BlockDetectionDone unit unit unit ABORTED tt]
      (boot home_always default_params) = Some n /\
    shutdowns (trace n) =
      length (filter (causes_shutdown (once (initialize default_params)))
                (trace n)) /\
    shutdown_requested n =
      existsb (causes_shutdown (once (initialize default_params))) (trace n).
Proof.
  destruct (run home_always [@BlockDetectionDone unit unit unit ABORTED tt]
              (boot home_always default_params)) as [n|] eqn:H;
    [|vm_compute in H; discriminate H].
  exists n. split; [reflexivity|].
  exact (shutdown_has_a_cause home_always unit unit unit default_params _ n H).
Defined.

(** X3 after a lost PickPlace goal followed by a failing reset call. *)
Lemma one_error_line_per_failure_witness :
  exists n,
    run home_first_only
      [@BlockDetectionDone unit unit unit SUCCEEDED tt;
       InteractiveBlockManipulationDone SUCCEEDED tt;
       PickPlaceDone LOST tt]
      (boot home_first_only default_params) = Some n /\
    errors (trace n) = failed_completions (trace n) + failed_calls (trace n).
Proof.
  destruct (run home_first_only
              [@BlockDetectionDone unit unit unit SUCCEEDED tt;
               InteractiveBlockManipulationDone SUCCEEDED tt;
               PickPlaceDone LOST tt]
              (boot home_first_only default_params)) as [n|] eqn:H;
    [|vm_compute in H; discriminate H].
  exists n. split; [reflexivity|].
  exact (one_error_line_per_failure home_first_only unit unit unit
           default_params _ n H).
Defined.

(** X4 after a rejected Detect goal and a preempted Select goal. *)
Lemma every_completion_sends_the_next_goal_witness :
  exists n,
    run home_always
      [@BlockDetectionDone unit unit unit REJECTED tt;
       InteractiveBlockManipulationDone PREEMPTED tt]
      (boot home_always default_params) = Some n /\
    goals_sent interactive_manipulation (trace n) =
      completions block_detection (trace n) /\
    goals_sent pick_place (trace n) =
      completions interactive_manipulation (trace n).
Proof.
  destruct (run home_always
              [@BlockDetectionDone unit unit unit REJECTED tt;
               InteractiveBlockManipulationDone PREEMPTED tt]
              (boot home_always default_params)) as [n|] eqn:H;
    [|vm_compute in H; discriminate H].
  exists n. split; [reflexivity|].
  exact (every_completion_sends_the_next_goal home_always unit unit unit
           default_params _ n H).
Defined.

(** X5 after one full cycle in the looping mode. *)
Lemma reset_calls_counted_witness :
  exists n,
    run home_always
      [@BlockDetectionDone unit unit unit SUCCEEDED tt;
       InteractiveBlockManipulationDone SUCCEEDED tt;
       PickPlaceDone ABORTED tt]
      (boot home_always default_params) = Some n /\
    calls_made (trace n) =
      1 + (if once (initialize default_params) then 0
           else completions pick_place (trace n)) /\
    goals_sent block_detection (trace n) + failed_calls (trace n) =
      calls_made (trace n).
Proof.
  destruct (run home_always
              [@BlockDetectionDone unit unit unit SUCCEEDED tt;
               InteractiveBlockManipulationDone SUCCEEDED tt;
               PickPlaceDone ABORTED tt]
              (boot home_always default_params)) as [n|] eqn:H;
    [|vm_compute in H; discriminate H].
  exists n. split; [reflexivity|].
  exact (reset_calls_counted home_always unit unit unit default_params _ n H).
Defined.


(** X7 at the fourth completion of a run: block detection again. *)
Lemma callbacks_in_stage_order_witness :
  let cs := [@BlockDetectionDone unit unit unit SUCCEEDED tt;
             InteractiveBlockManipulationDone ABORTED tt;
             PickPlaceDone SUCCEEDED tt;
             BlockDetectionDone LOST tt] in
  exists n,
    run home_always cs (boot home_always default_params) = Some n /\
    nth_error cs 3 = Some (BlockDetectionDone LOST tt) /\
    completion_endpoint (@BlockDetectionDone unit unit unit LOST tt) = stage 3.
Proof.
  intros cs.
  destruct (run home_always cs (boot home_always default_params)) as [n|] eqn:H;
    [|vm_compute in H; discriminate H].
  exists n. split; [reflexivity|]. split; [reflexivity|].
  exact (callbacks_in_stage_order home_always unit unit unit default_params
           cs n 3 _ H eq_refl).
Defined.

(** X9 after the single cycle of a run-once node. *)
Lemma run_once_never_repeats_witness :
  exists n,
    once (initialize once_params) = true /\
    run home_always
      [@BlockDetectionDone unit unit unit SUCCEEDED tt;
       InteractiveBlockManipulationDone SUCCEEDED tt;
       PickPlaceDone SUCCEEDED tt]
      (boot home_always once_params) = Some n /\
    calls_made (trace n) = 1 /\
    goals_sent block_detection (trace n) <= 1 /\
    goals_sent interactive_manipulation (trace n) <= 1 /\
    goals_sent pick_place (trace n) <= 1.
Proof.
  destruct (run home_always
              [@BlockDetectionDone unit unit unit SUCCEEDED tt;
               InteractiveBlockManipulationDone SUCCEEDED tt;
               PickPlaceDone SUCCEEDED tt]
              (boot home_always once_params)) as [n|] eqn:H;
    [|vm_compute in H; discriminate H].
  exists n. split; [reflexivity|]. split; [reflexivity|].
  exact (run_once_never_repeats home_always unit unit unit once_params _ n
           eq_refl H).
Defined.

(** X10 once all three goals of the first cycle have been sent. *)
Lemma goals_agree_on_frame_and_size_witness :
  exists n,
    run home_always
      [@BlockDetectionDone unit unit unit SUCCEEDED tt;
       InteractiveBlockManipulationDone SUCCEEDED tt]
      (boot home_always default_params) = Some n /\
    (forall g1 g2,
       In (SendGoal (DetectGoal g1)) (trace n) ->
       In (SendGoal (SelectGoal g2)) (trace n) ->
       BlockDetectionGoal.frame g1 = InteractiveBlockManipulationGoal.frame g2 /\
       BlockDetectionGoal.block_size g1 =
         InteractiveBlockManipulationGoal.block_size g2) /\
    (forall g1 g3,
       In (SendGoal (DetectGoal g1)) (trace n) ->
       In (SendGoal (PickPlaceGoal_ g3)) (trace n) ->
       BlockDetectionGoal.frame g1 = PickPlaceGoal.frame g3).
Proof.
  destruct (run home_always
              [@BlockDetectionDone unit unit unit SUCCEEDED tt;
               InteractiveBlockManipulationDone SUCCEEDED tt]
              (boot home_always default_params)) as [n|] eqn:H;
    [|vm_compute in H; discriminate H].
  exists n. split; [reflexivity|].
  exact (goals_agree_on_frame_and_size home_always unit unit unit
           default_params _ n H).
Defined.

(** X11 after a cycle whose PickPlace goal was aborted. *)
Lemma default_loop_never_shuts_down_witness :
  exists n,
    get_bool default_params "once" = None /\
    run home_always
      [@BlockDetectionDone unit unit unit SUCCEEDED tt;
       InteractiveBlockManipulationDone SUCCEEDED tt;
       PickPlaceDone ABORTED tt]
      (boot home_always default_params) = Some n /\
    shutdown_requested n = false /\ shutdowns (trace n) = 0.
Proof.
  destruct (run home_always
              [@BlockDetectionDone unit unit unit SUCCEEDED tt;
               InteractiveBlockManipulationDone SUCCEEDED tt;
               PickPlaceDone ABORTED tt]
              (boot home_always default_params)) as [n|] eqn:H;
    [|vm_compute in H; discriminate H].
  exists n. split; [reflexivity|]. split; [reflexivity|].
  apply (default_loop_never_shuts_down home_always unit unit unit
           default_params _ n eq_refl H).
  vm_compute in H. injection H as <-.
  intros ep state Hin Hne. simpl in Hin.
  repeat (destruct Hin as [Hin|Hin];
          [first [ discriminate Hin
                 | injection Hin as <- <-;
                   first [reflexivity | exfalso; apply Hne; reflexivity] ]|]).
  destruct Hin.
Defined.

(** X12 at a node whose first reset call failed. *)
Lemma idle_only_for_two_reasons_witness :
  let n := boot home_never default_params in
  run home_never (@nil (Completion unit unit unit)) n = Some n /\
  (flags n = (false, false, false) <->
   (failed_calls (trace n) = 1 \/
    (once (initialize default_params) = true /\
     completions pick_place (trace n) = 1))).
Proof.
  intros n. split; [reflexivity|].
  exact (idle_only_for_two_reasons home_never unit unit unit default_params
           [] n eq_refl).
Defined.

(** ** Full cycles, counted *)

(** C5 fails as stated: with run-once off, after three cycles in which every
    stage reported SUCCEEDED (scenario C) the node has made four reset calls
    and sent four Detect goals, not three, because [finish] starts the next
    cycle while it handles the third PickPlace completion. *)
Lemma three_cycles_make_four_reset_calls :
  let c := [@BlockDetectionDone unit unit unit SUCCEEDED tt;
            InteractiveBlockManipulationDone SUCCEEDED tt;
            PickPlaceDone SUCCEEDED tt] in
  let cs := (([] ++ c) ++ c) ++ c in
  once (initialize default_params) = false /\
  successful_cycles 3 cs /\
  exists n,
    run home_always cs (boot home_always default_params) = Some n /\
    calls_made (trace n) = 4 /\
    goals_sent block_detection (trace n) = 4 /\
    goals_sent interactive_manipulation (trace n) = 3 /\
    goals_sent pick_place (trace n) = 3 /\
    calls_made (trace n) <> 3 /\
    goals_sent block_detection (trace n) <> 3.
Proof.
  intros c cs. split; [reflexivity|].
  split; [repeat apply cycles_more; apply cycles_none|].
  eexists. split; [vm_compute; reflexivity|].
  repeat split; try (vm_compute; reflexivity); vm_compute; discriminate.
Qed.

(** C5 as amended, at three successful cycles (scenario C), and its first
    part at the single cycle of a run-once node (scenario A). *)
Lemma cycles_in_stage_order_witness :
  let c := [@BlockDetectionDone unit unit unit SUCCEEDED tt;
            InteractiveBlockManipulationDone SUCCEEDED tt;
            PickPlaceDone SUCCEEDED tt] in
  let cs := (([] ++ c) ++ c) ++ c in
  once (initialize default_params) = false /\
  (forall i, i <= 3 -> home_always i <> None) /\
  successful_cycles 3 cs /\
  (exists n,
     run home_always cs (boot home_always default_params) = Some n /\
     requests (trace n) =
       concat (repeat (cycle (initialize default_params)) 3) ++
       [ServiceCall (SendHomeService.mkRequest true);
        SendGoal (DetectGoal (block_detection_goal_ (initialize default_params)))] /\
     calls_made (trace n) = 4 /\
     goals_sent block_detection (trace n) = 4 /\
     goals_sent interactive_manipulation (trace n) = 3 /\
     goals_sent pick_place (trace n) = 3) /\
  (forall r1 r2,
   exists n,
     run home_always
       (cs ++ [BlockDetectionDone SUCCEEDED r1;
               InteractiveBlockManipulationDone SUCCEEDED r2])
       (boot home_always default_params) = Some n /\
     requests (trace n) = concat (repeat (cycle (initialize default_params)) 4) /\
     flags n = (false, false, true)) /\
  (exists n k j,
     run home_always c (boot home_always once_params) = Some n /\
     j < 4 /\
     requests (trace n) =
       concat (repeat (cycle (initialize once_params)) k) ++
       firstn j (cycle (initialize once_params))).
Proof.
  intros c cs.
  assert (once (initialize default_params) = false) as H1 by reflexivity.
  assert (forall i, i <= 3 -> home_always i <> None) as H2
    by (intros i _; discriminate).
  assert (successful_cycles 3 cs) as H3
    by (repeat apply cycles_more; apply cycles_none).
  split; [exact H1|]. split; [exact H2|]. split; [exact H3|].
  destruct (proj2 (cycles_in_stage_order home_always unit unit unit
                     default_params) 3 cs H1 H2 H3) as [A B].
  split; [exact A|]. split; [exact B|].
  destruct (run home_always c (boot home_always once_params)) as [n|] eqn:H;
    [|vm_compute in H; discriminate H].
  destruct (proj1 (cycles_in_stage_order home_always unit unit unit
                     once_params) c n H) as (k & j & Hj & Hr).
  exists n, k, j. split; [reflexivity|]. split; assumption.
Defined.
